(** * Beat-grid analyzers of tube-separator

    A shallow embedding of [server/python/analyze_beatgrid.py] (variant 1)
    and [server/python/analyze_beatgrid_v2.py] (variant 2), and the
    properties of the beat-grid pipeline proved on it.

    Modelling conventions.
    - Numbers.  The numeric blocks of the analyzers (the rounding of the
      tempo, the grid offset, the confidence) are embedded twice.
      Modules [V1_b64] and [V2_b64] hold them over IEEE 754 binary64
      (module [B64]): every operation rounds to nearest, ties to even,
      with gradual underflow, overflow to an infinity, and NaN.  What is
      proved about the numbers the analyzers report is proved there.
      Modules [V1] and [V2] hold the whole pipeline (decoder, engine,
      cleanup, output) with a Python [float] as an exact rational ([Q],
      module [PyFloat]); what is proved there is about control flow,
      files and streams, or holds of the rationals and of binary64 alike.
    - A binary64 number is held as the rational it denotes; the two zeros
      of binary64 are not told apart.  The modelled code compares zeros
      but never divides by one, so their sign is never seen.
    - The sum of an array is numpy's pairwise summation; the square root
      is correctly rounded.  Over [Q] the square root of [np.std] is not
      a rational function: the pipeline takes it as the parameter
      [np_sqrt].
    - Operations of Python that can raise ([/], [%], indexing) return a
      [result]; the exception classes that occur are the constructors of
      [exn].
    - The operating system, the decoder process (ffmpeg), the analysis
      engine (librosa) and [bytes.decode] are external: they are the fields
      of the record [Env].  The mutable part of the world (files on disk,
      decoder invocations, the two output streams) is the record [World],
      threaded through the monad [M]. *)

From Stdlib Require Import QArith Qround Qabs Qminmax Qpower Lqa ZArith Ascii String.
From stdpp Require Import gmap strings list sorting.

Local Open Scope Q_scope.

(** ** Python values and exceptions *)

Definition bytes := list Byte.byte.

(** The exception classes raised along the pipeline; every constructor
    carries what [str(e)] returns, [CalledProcessError] also the captured
    standard error of the child process. *)
Inductive exn : Type :=
  | CalledProcessError (msg : string) (stderr : bytes)
  | RuntimeError (msg : string)
  | ZeroDivisionError (msg : string)
  | IndexError (msg : string)
  | ValueError (msg : string)
  | OSError (msg : string)
  | AnalysisException (msg : string).

Definition str (e : exn) : string :=
  match e with
  | CalledProcessError msg _ => msg
  | RuntimeError msg => msg
  | ZeroDivisionError msg => msg
  | IndexError msg => msg
  | ValueError msg => msg
  | OSError msg => msg
  | AnalysisException msg => msg
  end.

Inductive result (A : Type) : Type :=
  | Ok (a : A)
  | Raise (e : exn).
Arguments Ok {A} a.
Arguments Raise {A} e.

Definition rbind {A B : Type} (r : result A) (k : A -> result B) : result B :=
  match r with
  | Ok a => k a
  | Raise e => Raise e
  end.

(** ** Float arithmetic of Python and numpy, over exact rationals *)

(** The operations of this module do not round, overflow or produce NaN:
    they are the arithmetic of the pipeline modules [V1] and [V2], whose
    properties are about control flow.  The operations as binary64
    performs them are those of module [B64] below. *)
Module PyFloat.

Definition ltb (x y : Q) : bool := negb (Qle_bool y x).
Definition eqb (x y : Q) : bool := Qeq_bool x y.

(** Truth value of a float: [bool(x)] is [x != 0.0]. *)
Definition truthy (x : Q) : bool := negb (eqb x 0).

(** [x / y] of Python floats, exact ([B64.div] rounds). *)
Definition div (x y : Q) : result Q :=
  if eqb y 0 then Raise (ZeroDivisionError "float division by zero")
  else Ok (x / y).

(** C's [fmod]: the remainder of the division truncated towards zero; it
    has the sign of [x]. *)
Definition Qtrunc (q : Q) : Z :=
  if ltb q 0 then Qceiling q else Qfloor q.
Definition fmod (x y : Q) : Q := x - y * inject_Z (Qtrunc (x / y)).

(** [x % y] of Python floats (CPython's [float_rem]): [fmod], moved to the
    sign of the divisor; exact ([B64.mod_] rounds the sum). *)
Definition mod_ (x y : Q) : result Q :=
  if eqb y 0 then Raise (ZeroDivisionError "float modulo")
  else
    let m := fmod x y in
    if negb (eqb m 0) then
      if xorb (ltb y 0) (ltb m 0) then Ok (m + y) else Ok m
    else Ok 0.0.

Definition abs (x : Q) : Q := Qabs x.

(** Round half to even, to an integer ([rint]). *)
Definition rint (x : Q) : Z :=
  let f := Qfloor x in
  let r := x - inject_Z f in
  if ltb r (1 # 2) then f
  else if ltb (1 # 2) r then (f + 1)%Z
  else if Z.even f then f else (f + 1)%Z.

(** [np.round(x, decimals)] for [decimals >= 0]: multiply by
    [10 ** decimals], [rint], divide; product and quotient are exact
    ([B64.np_round] rounds both and can overflow). *)
Definition np_round (x : Q) (decimals : nat) : Q :=
  let f := inject_Z (10 ^ Z.of_nat decimals) in
  inject_Z (rint (x * f)) / f.

(** [np.diff] of a one-dimensional array: [a[i+1] - a[i]]. *)
Fixpoint np_diff (a : list Q) : list Q :=
  match a with
  | x :: (y :: _) as rest => (y - x) :: np_diff rest
  | _ => []
  end.

(** [np.all(a > 0)]. *)
Definition np_all_pos (a : list Q) : bool := forallb (fun d => ltb 0 d) a.

Definition np_sum (a : list Q) : Q := fold_left Qplus a 0.

Definition np_mean (a : list Q) : Q :=
  np_sum a / inject_Z (Z.of_nat (length a)).

(** [np.std] (population standard deviation, [ddof = 0]): the square root
    of the mean of the squared deviations from the mean.  The square root
    is not a rational function; it is passed in.  Differences, products
    and sums are exact ([B64.np_std] rounds each and takes the correctly
    rounded root). *)
Definition np_std (sqrt : Q -> Q) (a : list Q) : Q :=
  let arrmean := np_mean a in
  let x := map (fun v => v - arrmean) a in
  sqrt (np_mean (map (fun v => v * v) x)).

(** [np.clip(x, lo, hi)] is [minimum(maximum(x, lo), hi)]. *)
Definition np_clip (x lo hi : Q) : Q := Qmin (Qmax x lo) hi.

End PyFloat.

(** ** Float arithmetic of Python and numpy, in IEEE 754 binary64 *)

Module B64.

(** A binary64 number: a finite value, an infinity or NaN.  The finite
    values are held as the rationals they denote; the two zeros are not
    told apart (they compare equal, and the analyzers only compare). *)
Inductive float : Type :=
  | Fin (q : Q)
  | Inf (negative : bool)
  | NaN.

Definition pow2 (e : Z) : Q := 2 ^ e.

(** The exponent [k] with [2^k <= a < 2^(k+1)], for [a > 0]. *)
Definition floor_log2 (a : Q) : Z :=
  let d := (Z.log2 (Qnum a) - Z.log2 (Zpos (Qden a)))%Z in
  if Qle_bool (pow2 d) a then d else (d - 1)%Z.

(** Rounding to nearest, ties to even: 53 significant bits, the least
    exponent of a unit in the last place [-1074] (gradual underflow), and
    overflow to an infinity from [2^1024] on. *)
Definition round (q : Q) : float :=
  let q := Qred q in
  if Qeq_bool q 0 then Fin 0
  else
    let a := Qabs q in
    let e := Z.max (floor_log2 a - 52) (-1074) in
    let n := PyFloat.rint (a / pow2 e) in
    let v := Qred (inject_Z n * pow2 e) in
    if Qle_bool (pow2 1024) v then Inf (PyFloat.ltb q 0)
    else Fin (if PyFloat.ltb q 0 then - v else v).

(** The largest finite binary64 number. *)
Definition max_float : Q := inject_Z (2 ^ 53 - 1) * pow2 971.

(** A decimal literal of the source denotes the nearest binary64. *)
Definition lit (q : Q) : float := round q.

Definition zero : float := Fin 0.
Definition one : float := Fin 1.
Definition of_nat (n : nat) : float := Fin (inject_Z (Z.of_nat n)).

Definition is_nan (x : float) : bool :=
  match x with NaN => true | _ => false end.

Definition opp (x : float) : float :=
  match x with
  | Fin q => Fin (- q)
  | Inf s => Inf (negb s)
  | NaN => NaN
  end.

Definition abs (x : float) : float :=
  match x with
  | Fin q => Fin (Qabs q)
  | Inf _ => Inf false
  | NaN => NaN
  end.

(** Comparisons: every comparison with NaN is false. *)
Definition ltb (x y : float) : bool :=
  match x, y with
  | Fin a, Fin b => PyFloat.ltb a b
  | Fin _, Inf s => negb s
  | Inf s, Fin _ => s
  | Inf s, Inf s' => s && negb s'
  | _, _ => false
  end.

Definition leb (x y : float) : bool :=
  match x, y with
  | Fin a, Fin b => Qle_bool a b
  | Fin _, Inf s => negb s
  | Inf s, Fin _ => s
  | Inf s, Inf s' => s || negb s'
  | _, _ => false
  end.

Definition eqb (x y : float) : bool :=
  match x, y with
  | Fin a, Fin b => Qeq_bool a b
  | Inf s, Inf s' => Bool.eqb s s'
  | _, _ => false
  end.

(** Truth value of a float: [bool(x)] is [x != 0.0]. *)
Definition truthy (x : float) : bool := negb (eqb x zero).

Definition add (x y : float) : float :=
  match x, y with
  | Fin a, Fin b => round (a + b)
  | Fin _, Inf s => Inf s
  | Inf s, Fin _ => Inf s
  | Inf s, Inf s' => if Bool.eqb s s' then Inf s else NaN
  | _, _ => NaN
  end.

Definition sub (x y : float) : float := add x (opp y).

Definition mul (x y : float) : float :=
  match x, y with
  | Fin a, Fin b => round (a * b)
  | Fin a, Inf s | Inf s, Fin a =>
      if Qeq_bool a 0 then NaN else Inf (xorb s (PyFloat.ltb a 0))
  | Inf s, Inf s' => Inf (xorb s s')
  | _, _ => NaN
  end.

(** The quotient of IEEE 754, as numpy computes it: a division by zero
    gives an infinity or NaN. *)
Definition fdiv (x y : float) : float :=
  match x, y with
  | Fin a, Fin b =>
      if Qeq_bool b 0
      then if Qeq_bool a 0 then NaN else Inf (PyFloat.ltb a 0)
      else round (a / b)
  | Fin _, Inf _ => zero
  | Inf s, Fin b => Inf (xorb s (PyFloat.ltb b 0))
  | _, _ => NaN
  end.

(** [x / y] of Python floats (CPython's [float_div]). *)
Definition div (x y : float) : result float :=
  if eqb y zero then Raise (ZeroDivisionError "float division by zero")
  else Ok (fdiv x y).

(** C's [fmod]: the remainder of the division truncated towards zero.  It
    is exact: no rounding takes place. *)
Definition fmod (x y : float) : float :=
  match x, y with
  | Fin a, Fin b => if Qeq_bool b 0 then NaN else Fin (Qred (PyFloat.fmod a b))
  | Fin a, Inf _ => Fin a
  | _, _ => NaN
  end.

(** [x % y] of Python floats (CPython's [float_rem]): [fmod], and the
    divisor added when the signs differ.  That addition rounds. *)
Definition mod_ (vx wx : float) : result float :=
  if eqb wx zero then Raise (ZeroDivisionError "float modulo")
  else
    let m := fmod vx wx in
    if truthy m then
      if xorb (ltb wx zero) (ltb m zero) then Ok (add m wx) else Ok m
    else Ok zero.

(** The square root, correctly rounded.  The argument is scaled by a power
    of four to an integer of more than 110 bits, whose integer square root
    then has more than 54: half a unit added to an inexact root cannot move
    it across a rounding boundary. *)
Definition sqrt (x : float) : float :=
  match x with
  | Fin q =>
      if PyFloat.ltb q 0 then NaN
      else if Qeq_bool q 0 then zero
      else
        let k := ((110 - floor_log2 q) / 2 + 1)%Z in
        let scaled := q * pow2 (2 * k) in
        let n := Qfloor scaled in
        let r := Z.sqrt n in
        let exact := (r * r =? n)%Z && Qeq_bool (inject_Z n) scaled in
        round ((inject_Z r + (if exact then 0 else 1 # 2)) / pow2 k)
  | Inf false => Inf false
  | _ => NaN
  end.

(** [rint]: the nearest integer, ties to even. *)
Definition rint (x : float) : float :=
  match x with
  | Fin q => Fin (inject_Z (PyFloat.rint q))
  | _ => x
  end.

(** [np.round(x, decimals)] for [decimals > 0]: multiply by
    [10 ** decimals], [rint], divide; each step is a binary64 operation. *)
Definition np_round (x : float) (decimals : nat) : float :=
  let f := Fin (inject_Z (10 ^ Z.of_nat decimals)) in
  fdiv (rint (mul x f)) f.

(** [np.diff] of a one-dimensional array: [a[i+1] - a[i]]. *)
Fixpoint np_diff (a : list float) : list float :=
  match a with
  | x :: (y :: _) as rest => sub y x :: np_diff rest
  | _ => []
  end.

(** [np.all(a > 0)]. *)
Definition np_all_pos (a : list float) : bool := forallb (fun d => ltb zero d) a.

(** The sum of an array ([np.add.reduce]) is numpy's pairwise summation:
    fewer than 8 numbers are added from left to right; up to 128 are
    added in 8 interleaved lanes, the lanes combined as a tree and the
    remaining numbers added one by one; a longer array is split near the
    middle at a multiple of 8. *)
Fixpoint lanes (r : list float) (a : list float) (blocks : nat) : list float * list float :=
  match blocks with
  | O => (r, a)
  | S b => lanes (zip_with add r (take 8 a)) (drop 8 a) b
  end.

Definition sum_block (a : list float) : float :=
  let n := length a in
  let '(r, rest) := lanes (take 8 a) (drop 8 a) (n / 8 - 1) in
  match r with
  | [r0; r1; r2; r3; r4; r5; r6; r7] =>
      fold_left add rest
        (add (add (add r0 r1) (add r2 r3)) (add (add r4 r5) (add r6 r7)))
  | _ => NaN
  end.

Fixpoint pairwise_sum (fuel : nat) (a : list float) : float :=
  let n := length a in
  if (n <? 8)%nat then fold_left add a zero
  else if (n <=? 128)%nat then sum_block a
  else
    match fuel with
    | O => NaN
    | S fuel =>
        let n2 := (n / 2 - (n / 2) mod 8)%nat in
        add (pairwise_sum fuel (take n2 a)) (pairwise_sum fuel (drop n2 a))
    end.

Definition np_sum (a : list float) : float :=
  add zero (pairwise_sum (length a) a).

(** [np.mean]: the sum divided by the count. *)
Definition np_mean (a : list float) : float :=
  fdiv (np_sum a) (of_nat (length a)).

(** [np.std] (population standard deviation, [ddof = 0]): the mean of the
    array, the deviations from it, their squares, the sum of the squares
    divided by the count, and the square root of that. *)
Definition np_std (a : list float) : float :=
  let arrmean := np_mean a in
  let x := map (fun v => sub v arrmean) a in
  let x := map (fun v => mul v v) x in
  sqrt (fdiv (np_sum x) (of_nat (length a))).

(** [np.clip(x, lo, hi)]: the larger of [x] and [lo], then the smaller of
    that and [hi]; a NaN passes through. *)
Definition maximum (a b : float) : float :=
  if is_nan a then a else if ltb b a then a else b.
Definition minimum (a b : float) : float :=
  if is_nan a then a else if ltb a b then a else b.
Definition np_clip (x lo hi : float) : float := minimum (maximum x lo) hi.

(** Two floats that denote the same number. *)
Definition same (x y : float) : Prop :=
  match x, y with
  | Fin a, Fin b => a == b
  | Inf s, Inf s' => s = s'
  | NaN, NaN => True
  | _, _ => False
  end.

End B64.

(** ** Python lists, ranges and path strings *)

Module Py.

(** [l[i]], with Python's negative indices and [IndexError]. *)
Definition getitem {A : Type} (l : list A) (i : Z) : result A :=
  let n := Z.of_nat (length l) in
  let j := if (i <? 0)%Z then (i + n)%Z else i in
  if ((j <? 0) || (n <=? j))%Z then Raise (IndexError "list index out of range")
  else
    match l !! Z.to_nat j with
    | Some x => Ok x
    | None => Raise (IndexError "list index out of range")
    end.

(** Truth value of a list: non-empty. *)
Definition list_truthy {A : Type} (l : list A) : bool :=
  match l with
  | [] => false
  | _ :: _ => true
  end.

(** The elements of [range(start, stop, step)]: upwards from [i] while
    below [stop] for a positive [step], downwards while above [stop] for
    a negative one.  [fuel] bounds their number, at most [|stop - start|]. *)
Fixpoint range_up (fuel : nat) (i stop step : Z) : list Z :=
  match fuel with
  | O => []
  | S fuel' =>
      if (i <? stop)%Z then i :: range_up fuel' (i + step)%Z stop step
      else []
  end.
Fixpoint range_down (fuel : nat) (i stop step : Z) : list Z :=
  match fuel with
  | O => []
  | S fuel' =>
      if (stop <? i)%Z then i :: range_down fuel' (i + step)%Z stop step
      else []
  end.

(** [range(start, stop, step)], as a list; a zero step raises
    [ValueError]. *)
Definition range (start stop step : Z) : result (list Z) :=
  if (step =? 0)%Z then Raise (ValueError "range() arg 3 must not be zero")
  else if (step <? 0)%Z
  then Ok (range_down (Z.to_nat (start - stop)) start stop step)
  else Ok (range_up (Z.to_nat (stop - start)) start stop step).

(** A list comprehension [[f(i) for i in xs]] whose body can raise. *)
Fixpoint comprehension {A B : Type} (f : A -> result B) (xs : list A)
  : result (list B) :=
  match xs with
  | [] => Ok []
  | x :: xs' =>
      rbind (f x) (fun y => rbind (comprehension f xs') (fun ys => Ok (y :: ys)))
  end.

(** [s.rfind(c)]: the highest index of [c] in [s], or [-1]. *)
Fixpoint rfind_from (c : ascii) (s : string) (i found : Z) : Z :=
  match s with
  | EmptyString => found
  | String a s' => rfind_from c s' (i + 1)%Z (if Ascii.eqb a c then i else found)
  end.
Definition rfind (s : string) (c : ascii) : Z := rfind_from c s 0%Z (-1)%Z.

(** The loop of [genericpath._splitext] that skips leading dots of the file
    name: [true] when a character other than the dot stands between
    [filenameIndex] and [dotIndex], [n] being their distance. *)
Fixpoint name_before_dot (p : string) (filenameIndex n : nat) : bool :=
  match n with
  | O => false
  | S n' =>
      match String.get filenameIndex p with
      | Some c =>
          if negb (Ascii.eqb c ".") then true
          else name_before_dot p (S filenameIndex) n'
      | None => true
      end
  end.

(** [os.path.splitext] (POSIX: separator [/], no alternative separator). *)
Definition splitext (p : string) : string * string :=
  let sepIndex := rfind p "/" in
  let dotIndex := rfind p "." in
  if (sepIndex <? dotIndex)%Z
  then
    if name_before_dot p (Z.to_nat (sepIndex + 1)) (Z.to_nat (dotIndex - (sepIndex + 1)))
    then (substring 0 (Z.to_nat dotIndex) p,
          substring (Z.to_nat dotIndex) (String.length p - Z.to_nat dotIndex) p)
    else (p, EmptyString)
  else (p, EmptyString).

(** [str.lower] on ASCII strings. *)
Definition lower_ascii (c : ascii) : ascii :=
  let n := nat_of_ascii c in
  if ((65 <=? n) && (n <=? 90))%nat then ascii_of_nat (n + 32) else c.
Fixpoint lower (s : string) : string :=
  match s with
  | EmptyString => EmptyString
  | String c s' => String (lower_ascii c) (lower s')
  end.

End Py.

(** ** Records written by the analyzers *)

(** The dict built by [analyze] and [analyze_v2].  Variant 1 has no key
    [downbeatTimesSec]: the field is [None] there. *)
Record BeatGrid : Type := mkBeatGrid {
  bpm : option Q;
  gridOffsetSec : Q;
  beatsPerBar : Z;
  beatTimesSec : list Q;
  downbeatTimesSec : option (list Q);
  confidence : option Q;
  analyzer : string
}.

(** The dict [{"error": str(e)}]. *)
Record ErrorResult : Type := mkErrorResult { error : string }.

(** ** The world: state and external collaborators *)

(** What [subprocess.run] meets: the child ran and exited with a return
    code and captured standard error, or it could not be started at all
    (missing executable, no permission), which raises [OSError]'s subclass
    [FileNotFoundError] or [PermissionError]. *)
Inductive run_outcome : Type :=
  | Exited (returncode : Z) (captured_stderr : bytes)
  | NotStarted (msg : string).

Record Env : Type := mkEnv {
  (** [os.environ.get("FFMPEG")] *)
  environ_FFMPEG : option string;
  (** directory, prefix and random part of the name [tempfile.mkstemp]
      picks, given the files on disk *)
  mkstemp_name : gset string -> string;
  (** the behaviour of the process started for a command line *)
  run_process : list string -> run_outcome;
  (** variant 1, lines 75-85: [librosa.load], [onset_strength],
      [beat_track], [frames_to_time], [tolist]: tempo and beat times *)
  librosa_beats : string -> result (option Q * list Q);
  (** variant 2, lines 72-85: the same on the log-mel onset envelope *)
  librosa_beats_v2 : string -> result (option Q * list Q);
  (** [b.decode('utf-8', errors='ignore')] *)
  decode_utf8_ignore : bytes -> string
}.

Record World : Type := mkWorld {
  files : gset string;
  decoder_calls : list (list string);
  stdout : list BeatGrid;
  stderr : list ErrorResult
}.

Definition set_files (f : gset string -> gset string) (w : World) : World :=
  mkWorld (f (files w)) (decoder_calls w) (stdout w) (stderr w).
Definition log_call (cmd : list string) (w : World) : World :=
  mkWorld (files w) (decoder_calls w ++ [cmd]) (stdout w) (stderr w).
Definition write_stdout (g : BeatGrid) (w : World) : World :=
  mkWorld (files w) (decoder_calls w) (stdout w ++ [g]) (stderr w).
Definition write_stderr (e : ErrorResult) (w : World) : World :=
  mkWorld (files w) (decoder_calls w) (stdout w) (stderr w ++ [e]).

(** ** The monad of effectful Python code: state and exceptions *)

Definition M (A : Type) : Type := World -> result A * World.

Definition ret {A : Type} (a : A) : M A := fun w => (Ok a, w).
Definition raise {A : Type} (e : exn) : M A := fun w => (Raise e, w).
Definition lift {A : Type} (r : result A) : M A := fun w => (r, w).
Definition bind {A B : Type} (c : M A) (k : A -> M B) : M B :=
  fun w =>
    match c w with
    | (Ok a, w') => k a w'
    | (Raise e, w') => (Raise e, w')
    end.

#[global] Instance M_ret : MRet M := @ret.
#[global] Instance M_bind : MBind M := fun A B k c => bind c k.

(** [try: body except ...: handler]: [handler e] is [None] when no [except]
    clause matches [e]. *)
Definition try_except {A : Type} (body : M A) (handler : exn -> option (M A)) : M A :=
  fun w =>
    match body w with
    | (Ok a, w') => (Ok a, w')
    | (Raise e, w') =>
        match handler e with
        | Some h => h w'
        | None => (Raise e, w')
        end
    end.

(** [try: body finally: final]: [final] runs on both exits of [body]. *)
Definition try_finally {A : Type} (body : M A) (final : M unit) : M A :=
  fun w =>
    match body w with
    | (r, w') =>
        match final w' with
        | (Ok _, w'') => (r, w'')
        | (Raise e, w'') => (Raise e, w'')
        end
    end.

(** [except Exception: pass] *)
Definition except_pass (e : exn) : option (M unit) := Some (ret tt).

Section OS.
Context (env : Env).

(** [os.environ.get(name, default)] for the one name the code reads. *)
Definition environ_get_FFMPEG (default : string) : string :=
  match environ_FFMPEG env with
  | Some v => v
  | None => default
  end.

(** [tempfile.mkstemp(suffix=...)] followed by [os.close]: the file is
    created on disk and its path returned. *)
Definition mkstemp (suffix : string) : M string :=
  fun w =>
    let tmp_path := (mkstemp_name env (files w) +:+ suffix)%string in
    (Ok tmp_path, set_files (fun fs => {[tmp_path]} ∪ fs) w).

(** [os.remove(path)] *)
Definition os_remove (path : string) : M unit :=
  fun w =>
    if decide (path ∈ files w)
    then (Ok tt, set_files (fun fs => fs ∖ {[path]}) w)
    else (Raise (OSError "[Errno 2] No such file or directory"), w).

(** [subprocess.run(cmd, stdout=PIPE, stderr=PIPE, check=True)] *)
Definition subprocess_run_check (cmd : list string) : M unit :=
  fun w =>
    let w' := log_call cmd w in
    match run_process env cmd with
    | Exited rc err =>
        if (rc =? 0)%Z then (Ok tt, w')
        else (Raise (CalledProcessError "Command returned non-zero exit status" err), w')
    | NotStarted msg => (Raise (OSError msg), w')
    end.

(** [print(json.dumps(result))] *)
Definition print (g : BeatGrid) : M unit := fun w => (Ok tt, write_stdout g w).

(** [sys.stderr.write(json.dumps({"error": ...}) + "\n")] *)
Definition stderr_write (e : ErrorResult) : M unit :=
  fun w => (Ok tt, write_stderr e w).

End OS.

(** ** Variant 1: [analyze_beatgrid.py] *)

Module V1.
Section WithEnv.
Context (np_sqrt : Q -> Q) (env : Env).

(** The ffmpeg command line of [_decode_to_wav] (lines 39-51). *)
Definition ffmpeg_cmd (ffmpeg_bin input_path tmp_path : string) : list string :=
  [ffmpeg_bin; "-y"; "-i"; input_path; "-ac"; "1"; "-ar"; "44100"; "-f"; "wav";
   tmp_path]%string.

(** Lines 22-67. *)
Definition _decode_to_wav (input_path : string) : M (string * bool) :=
  let ext := Py.lower (snd (Py.splitext input_path)) in
  if String.eqb ext ".wav" then ret (input_path, false)
  else
    let ffmpeg_bin := environ_get_FFMPEG env "ffmpeg" in
    tmp_path ← mkstemp env ".wav";
    let cmd := ffmpeg_cmd ffmpeg_bin input_path tmp_path in
    try_except
      (subprocess_run_check env cmd;;
       ret (tmp_path, true))
      (fun e =>
         match e with
         | CalledProcessError _ e_stderr =>
             Some (try_except (os_remove tmp_path) except_pass;;
                   raise (RuntimeError
                            ("ffmpeg failed to decode input: "
                             +:+ decode_utf8_ignore env e_stderr)))
         | _ => None
         end).

(** Lines 90-99: the grid offset, the first beat time modulo the beat
    period. *)
Definition grid_offset (bpm : option Q) (beat_times : list Q) : result Q :=
  let offset := 0.0 in
  match bpm with
  | Some bpm =>
      if PyFloat.truthy bpm && PyFloat.ltb 0 bpm && Py.list_truthy beat_times
      then
        rbind (PyFloat.div 60.0 bpm) (fun beat_period =>
        rbind (Py.getitem beat_times 0) (fun raw =>
        rbind (PyFloat.mod_ raw beat_period) (fun offset =>
        if PyFloat.ltb (PyFloat.abs offset) 0.02 then Ok 0.0 else Ok offset)))
      else Ok offset
  | None => Ok offset
  end.

(** Lines 101-108: the confidence from the stability of the beat
    intervals. *)
Definition stability (beat_times : list Q) : option Q :=
  if (3 <=? length beat_times)%nat then
    let diffs := PyFloat.np_diff beat_times in
    if PyFloat.np_all_pos diffs then
      Some (PyFloat.np_clip
              (1.0 - (PyFloat.np_std np_sqrt diffs / (PyFloat.np_mean diffs + 1e-6)))
              0.0 1.0)
    else None
  else None.

(** Line 88. *)
Definition bpm_of_tempo (tempo : option Q) : option Q :=
  match tempo with
  | Some t => Some (PyFloat.np_round t 1)
  | None => None
  end.

(** Lines 70-124. *)
Definition analyze (audio_path : string) : M BeatGrid :=
  '(wav_path, should_delete) ← _decode_to_wav audio_path;
  try_finally
    ('(tempo, beat_times) ← lift (librosa_beats env wav_path);
     let bpm := bpm_of_tempo tempo in
     offset ← lift (grid_offset bpm beat_times);
     let stability := stability beat_times in
     let result :=
       {| bpm := bpm;
          gridOffsetSec := offset;
          beatsPerBar := 4;
          beatTimesSec := beat_times;
          downbeatTimesSec := None;
          confidence := stability;
          analyzer := "librosa_beat_track_v1" |} in
     ret result)
    (if should_delete : bool
     then try_except (os_remove wav_path) except_pass
     else ret tt).

(** Lines 132-138 of [main]; the value is the exit status of the
    process. *)
Definition main (path : string) : M Z :=
  try_except
    (result ← analyze path;
     print result;;
     ret 0%Z)
    (fun e =>
       Some (stderr_write {| error := str e |};;
             ret 1%Z)).

End WithEnv.
End V1.

(** ** Variant 2: [analyze_beatgrid_v2.py] *)

Module V2.
Section WithEnv.
Context (np_sqrt : Q -> Q) (env : Env).

(** The ffmpeg command line of [_decode_to_wav] (lines 31-43). *)
Definition ffmpeg_cmd (ffmpeg_bin input_path tmp_path : string) : list string :=
  [ffmpeg_bin; "-y"; "-i"; input_path; "-ac"; "1"; "-ar"; "44100"; "-f"; "wav";
   tmp_path]%string.

(** Lines 22-54. *)
Definition _decode_to_wav (input_path : string) : M (string * bool) :=
  let ext := Py.lower (snd (Py.splitext input_path)) in
  if String.eqb ext ".wav" then ret (input_path, false)
  else
    let ffmpeg_bin := environ_get_FFMPEG env "ffmpeg" in
    tmp_path ← mkstemp env ".wav";
    let cmd := ffmpeg_cmd ffmpeg_bin input_path tmp_path in
    try_except
      (subprocess_run_check env cmd;;
       ret (tmp_path, true))
      (fun e =>
         match e with
         | CalledProcessError _ e_stderr =>
             Some (try_except (os_remove tmp_path) except_pass;;
                   raise (RuntimeError
                            ("ffmpeg decode failed: "
                             +:+ decode_utf8_ignore env e_stderr)))
         | _ => None
         end).

(** Lines 57-62. *)
Definition _infer_downbeats_from_beats (beat_times : list Q) (beats_per_bar : Z)
  : result (list Q) :=
  if negb (Py.list_truthy beat_times) || (beats_per_bar <? 1)%Z then Ok []
  else
    rbind (Py.range 0 (Z.of_nat (length beat_times)) beats_per_bar) (fun idx =>
    Py.comprehension (fun i => Py.getitem beat_times i) idx).

(** Lines 94-99: the grid offset from the first beat within the period. *)
Definition grid_offset (bpm : option Q) (beat_times : list Q) : result Q :=
  let offset := 0.0 in
  match bpm with
  | Some bpm =>
      if PyFloat.truthy bpm && PyFloat.ltb 0 bpm && Py.list_truthy beat_times
      then
        rbind (PyFloat.div 60.0 bpm) (fun period =>
        rbind (Py.getitem beat_times 0) (fun t0 =>
        rbind (PyFloat.mod_ t0 period) (fun off =>
        Ok (if PyFloat.ltb (PyFloat.abs off) 0.02 then 0.0 else off))))
      else Ok offset
  | None => Ok offset
  end.

(** Lines 101-108: the confidence from the stability of the inter-beat
    intervals. *)
Definition confidence_of (beat_times : list Q) : option Q :=
  if (3 <=? length beat_times)%nat then
    let diffs := PyFloat.np_diff beat_times in
    if PyFloat.np_all_pos diffs then
      Some (PyFloat.np_clip
              (1.0 - (PyFloat.np_std np_sqrt diffs / (PyFloat.np_mean diffs + 1e-6)))
              0.0 1.0)
    else None
  else None.

(** Line 88. *)
Definition bpm_of_tempo (tempo : option Q) : option Q :=
  match tempo with
  | Some t => Some (PyFloat.np_round t 1)
  | None => None
  end.

(** Lines 65-124; [prefer_stem] is not used by the body. *)
Definition analyze_v2 (audio_path : string) (prefer_stem : string) : M BeatGrid :=
  '(wav_path, should_delete) ← _decode_to_wav audio_path;
  try_finally
    ('(tempo, beat_times) ← lift (librosa_beats_v2 env wav_path);
     let bpm := bpm_of_tempo tempo in
     let beats_per_bar := 4%Z in
     downbeat_times ← lift (_infer_downbeats_from_beats beat_times beats_per_bar);
     offset ← lift (grid_offset bpm beat_times);
     let confidence := confidence_of beat_times in
     ret {| bpm := bpm;
            gridOffsetSec := offset;
            beatsPerBar := beats_per_bar;
            beatTimesSec := beat_times;
            downbeatTimesSec := Some downbeat_times;
            confidence := confidence;
            analyzer := "librosa_v2_beats_downbeats" |})
    (if should_delete : bool
     then try_except (os_remove wav_path) except_pass
     else ret tt).

(** Lines 133-138 of [main]; the value is the exit status of the
    process. *)
Definition main (path preferStem : string) : M Z :=
  try_except
    (result ← analyze_v2 path preferStem;
     print result;;
     ret 0%Z)
    (fun e =>
       Some (stderr_write {| error := str e |};;
             ret 1%Z)).

End WithEnv.
End V2.

(** ** The numeric blocks of both variants, in binary64 *)

Module V1_b64.

(** Lines 90-99 of [analyze_beatgrid.py]. *)
Definition grid_offset (bpm : option B64.float) (beat_times : list B64.float)
  : result B64.float :=
  let offset := B64.zero in
  match bpm with
  | Some bpm =>
      if B64.truthy bpm && B64.ltb B64.zero bpm && Py.list_truthy beat_times
      then
        rbind (B64.div (B64.lit 60.0) bpm) (fun beat_period =>
        rbind (Py.getitem beat_times 0) (fun raw =>
        rbind (B64.mod_ raw beat_period) (fun offset =>
        if B64.ltb (B64.abs offset) (B64.lit 0.02) then Ok B64.zero
        else Ok offset)))
      else Ok offset
  | None => Ok offset
  end.

(** Lines 101-108. *)
Definition stability (beat_times : list B64.float) : option B64.float :=
  if (3 <=? length beat_times)%nat then
    let diffs := B64.np_diff beat_times in
    if B64.np_all_pos diffs then
      Some (B64.np_clip
              (B64.sub (B64.lit 1.0)
                 (B64.fdiv (B64.np_std diffs)
                    (B64.add (B64.np_mean diffs) (B64.lit 1e-6))))
              (B64.lit 0.0) (B64.lit 1.0))
    else None
  else None.

(** Line 88. *)
Definition bpm_of_tempo (tempo : option B64.float) : option B64.float :=
  match tempo with
  | Some t => Some (B64.np_round t 1)
  | None => None
  end.

End V1_b64.

Module V2_b64.

(** Lines 94-99 of [analyze_beatgrid_v2.py]. *)
Definition grid_offset (bpm : option B64.float) (beat_times : list B64.float)
  : result B64.float :=
  let offset := B64.zero in
  match bpm with
  | Some bpm =>
      if B64.truthy bpm && B64.ltb B64.zero bpm && Py.list_truthy beat_times
      then
        rbind (B64.div (B64.lit 60.0) bpm) (fun period =>
        rbind (Py.getitem beat_times 0) (fun t0 =>
        rbind (B64.mod_ t0 period) (fun off =>
        Ok (if B64.ltb (B64.abs off) (B64.lit 0.02) then B64.zero else off))))
      else Ok offset
  | None => Ok offset
  end.

(** Lines 101-108. *)
Definition confidence_of (beat_times : list B64.float) : option B64.float :=
  if (3 <=? length beat_times)%nat then
    let diffs := B64.np_diff beat_times in
    if B64.np_all_pos diffs then
      Some (B64.np_clip
              (B64.sub (B64.lit 1.0)
                 (B64.fdiv (B64.np_std diffs)
                    (B64.add (B64.np_mean diffs) (B64.lit 1e-6))))
              (B64.lit 0.0) (B64.lit 1.0))
    else None
  else None.

(** Line 88. *)
Definition bpm_of_tempo (tempo : option B64.float) : option B64.float :=
  match tempo with
  | Some t => Some (B64.np_round t 1)
  | None => None
  end.

End V2_b64.

(** ** What the specification says, in its own words *)

Module Spec.

(** Section 4.3, [x mod y] with its result in [[0, y)]: the remainder of
    the floored division. *)
Definition Qmod (x y : Q) : Q := x - y * inject_Z (Qfloor (x / y)).

(** Section 4.4: the intervals between consecutive beats, their mean and
    their standard deviation (the root of the mean squared deviation
    from the mean), and the clipping of a number to a range. *)
Definition intervals (beats : list B64.float) : list B64.float :=
  zip_with B64.sub (tail beats) beats.

Definition mean (xs : list B64.float) : B64.float :=
  B64.fdiv (B64.np_sum xs) (B64.of_nat (length xs)).

Definition stddev (xs : list B64.float) : B64.float :=
  let mu := mean xs in
  B64.sqrt (mean (map (fun x => B64.mul (B64.sub x mu) (B64.sub x mu)) xs)).

Definition clip (x lo hi : B64.float) : B64.float :=
  if B64.ltb x lo then lo else if B64.ltb hi x then hi else x.

Definition confidence (beats : list B64.float) : B64.float :=
  clip (B64.sub B64.one
          (B64.fdiv (stddev (intervals beats))
             (B64.add (mean (intervals beats)) (B64.lit 1e-6))))
       B64.zero B64.one.

End Spec.

(** ** Names used in the statements *)

(** The test of [_decode_to_wav] on the extension of the input path. *)
Definition is_wav (input_path : string) : bool :=
  String.eqb (Py.lower (snd (Py.splitext input_path))) ".wav".

(** The temporary path [mkstemp] hands out in a world, and the command line
    the decoder is then started with (the same in both variants). *)
Definition tmp_path_of (env : Env) (w : World) : string :=
  (mkstemp_name env (files w) +:+ ".wav")%string.
Definition decoder_cmd (env : Env) (input_path : string) (w : World) : list string :=
  V1.ffmpeg_cmd (environ_get_FFMPEG env "ffmpeg") input_path (tmp_path_of env w).

(** ** Concrete worlds *)

Module Examples.

(** A square root to six decimals, through the integer square root. *)
Definition sqrt6 (x : Q) : Q :=
  inject_Z (Z.sqrt (Qfloor (x * inject_Z (10 ^ 12)))) / inject_Z (10 ^ 6).

Definition decode_ascii (b : bytes) : string := string_of_list_byte b.

Definition env_with (outcome : run_outcome)
    (engine : result (option Q * list Q)) : Env :=
  {| environ_FFMPEG := None;
     mkstemp_name := fun _ => "/tmp/tmpq1w2e3r4"%string;
     run_process := fun _ => outcome;
     librosa_beats := fun _ => engine;
     librosa_beats_v2 := fun _ => engine;
     decode_utf8_ignore := decode_ascii |}.

Definition steady_beats : result (option Q * list Q) :=
  Ok (Some 120.04, [0.5; 1.0; 1.5; 2.0]).

(** The decoder succeeds. *)
Definition env_ok : Env := env_with (Exited 0 []) steady_beats.

(** The decoder exits with status 1 and a diagnostic. *)
Definition env_decode_fails : Env :=
  env_with (Exited 1 (list_byte_of_string "song.mp3: Invalid data found"))
           steady_beats.

(** No decoder executable: the process cannot be started. *)
Definition env_no_decoder : Env :=
  env_with (NotStarted "[Errno 2] No such file or directory: 'ffmpeg'")
           steady_beats.

(** The analysis engine raises. *)
Definition env_engine_fails : Env :=
  env_with (Exited 0 []) (Raise (AnalysisException "Error opening file")).

(** The analysis engine reports a tempo of zero. *)
Definition env_zero_tempo : Env :=
  env_with (Exited 0 []) (Ok (Some 0.0, [0.5; 1.0])).

(** Another machine: its own decoder path and temporary directory; the
    engine finds the same beats. *)
Definition env_other : Env :=
  {| environ_FFMPEG := Some "/opt/bin/ffmpeg"%string;
     mkstemp_name := fun _ => "/var/tmp/tmpzzzz0000"%string;
     run_process := fun _ => Exited 0 [];
     librosa_beats := fun _ => steady_beats;
     librosa_beats_v2 := fun _ => steady_beats;
     decode_utf8_ignore := decode_ascii |}.

Definition world0 : World :=
  {| files := {["song.mp3"%string; "take.WAV"%string]};
     decoder_calls := [];
     stdout := [];
     stderr := [] |}.

Definition world1 : World :=
  {| files := {["mix.flac"%string]};
     decoder_calls := [];
     stdout := [];
     stderr := [] |}.

(** The grid of a run that succeeded. *)
Definition grid_of (out : result BeatGrid * World) : BeatGrid :=
  match fst out with
  | Ok g => g
  | Raise _ => mkBeatGrid None 0 0 [] None None EmptyString
  end.

Definition nine_beats : list Q := [0.5; 1.0; 1.5; 2.0; 2.5; 3.0; 3.5; 4.0; 4.5].

End Examples.

(** * Properties *)

(** ** Comparisons and the modulo of floats *)

Lemma ltb_lt (x y : Q) : PyFloat.ltb x y = true <-> x < y.
Proof.
  unfold PyFloat.ltb. rewrite negb_true_iff.
  split; intros H.
  - apply Qnot_le_lt. intros Hle. apply Qle_bool_iff in Hle. congruence.
  - destruct (Qle_bool y x) eqn:E; [|reflexivity].
    apply Qle_bool_iff in E. apply Qlt_not_le in H. contradiction.
Qed.

Lemma ltb_ge (x y : Q) : PyFloat.ltb x y = false <-> y <= x.
Proof.
  unfold PyFloat.ltb. rewrite negb_false_iff. apply Qle_bool_iff.
Qed.

Lemma eqb_eq (x y : Q) : PyFloat.eqb x y = true <-> x == y.
Proof. apply Qeq_bool_iff. Qed.

Lemma eqb_neq (x y : Q) : PyFloat.eqb x y = false <-> ~ x == y.
Proof.
  unfold PyFloat.eqb. split.
  - intros H Heq. apply Qeq_bool_iff in Heq. congruence.
  - intros H. destruct (Qeq_bool x y) eqn:E; [|reflexivity].
    apply Qeq_bool_iff in E. contradiction.
Qed.

(** The floor of a rational is the one integer at most one below it. *)
Lemma Qfloor_unique (q : Q) (z : Z) :
  inject_Z z <= q -> q < inject_Z (z + 1) -> Qfloor q = z.
Proof.
  intros Hlo Hhi.
  pose proof (Qfloor_le q) as Hf. pose proof (Qlt_floor q) as Hl.
  assert (H1 : (z < Qfloor q + 1)%Z).
  { rewrite Zlt_Qlt. eapply Qle_lt_trans; eauto. }
  assert (H2 : (Qfloor q < z + 1)%Z).
  { rewrite Zlt_Qlt. eapply Qle_lt_trans; eauto. }
  lia.
Qed.

(** A quotient times its divisor. *)
Lemma Qdiv_mult_cancel (x y : Q) : ~ y == 0 -> y * (x / y) == x.
Proof. intros Hy. field. exact Hy. Qed.

(** The remainder of the floored division lies in [[0, y)]. *)
Lemma Qmod_range (x y : Q) : 0 < y -> 0 <= Spec.Qmod x y /\ Spec.Qmod x y < y.
Proof.
  intros Hy. unfold Spec.Qmod.
  pose proof (Qfloor_le (x / y)) as Hf. pose proof (Qlt_floor (x / y)) as Hl.
  rewrite inject_Z_plus in Hl.
  assert (Hx : y * (x / y) == x) by (apply Qdiv_mult_cancel; lra).
  set (q := x / y) in *. set (f := inject_Z (Qfloor q)) in *.
  change (inject_Z 1) with 1 in Hl.
  split; nra.
Qed.

(** Python's [%] on floats never raises for a positive divisor and agrees
    with the remainder of the floored division. *)
Lemma mod_floor (x y : Q) :
  0 < y -> exists m, PyFloat.mod_ x y = Ok m /\ m == Spec.Qmod x y.
Proof.
  intros Hy. unfold PyFloat.mod_.
  assert (Hy0 : PyFloat.eqb y 0 = false) by (apply eqb_neq; lra).
  rewrite Hy0.
  assert (Hylt : PyFloat.ltb y 0 = false) by (apply ltb_ge; lra).
  rewrite Hylt. cbn [xorb].
  assert (Hx : y * (x / y) == x) by (apply Qdiv_mult_cancel; lra).
  unfold PyFloat.fmod, PyFloat.Qtrunc, Spec.Qmod.
  set (q := x / y) in *.
  pose proof (Qfloor_le q) as Hf. pose proof (Qlt_floor q) as Hl.
  rewrite inject_Z_plus in Hl. change (inject_Z 1) with 1 in Hl.
  destruct (PyFloat.ltb q 0) eqn:Hq.
  - (* negative quotient: fmod truncates upwards *)
    pose proof (Qle_ceiling q) as Hc. pose proof (Qceiling_lt q) as Hcl.
    unfold Z.sub in Hcl. rewrite inject_Z_plus, inject_Z_opp in Hcl.
    change (inject_Z 1) with 1 in Hcl.
    set (m := x - y * inject_Z (Qceiling q)).
    destruct (PyFloat.eqb m 0) eqn:Hm; cbn [negb].
    + apply eqb_eq in Hm. eexists; split; [reflexivity|].
      assert (Hqc : q == inject_Z (Qceiling q)) by (subst m; nra).
      rewrite (Qfloor_comp _ _ Hqc), Qfloor_Z. subst m. lra.
    + apply eqb_neq in Hm.
      assert (Hneg : m < 0).
      { assert (m <= 0) by (subst m; nra). lra. }
      apply ltb_lt in Hneg. rewrite Hneg. eexists; split; [reflexivity|].
      apply ltb_lt in Hneg.
      assert (Hfl : Qfloor q = (Qceiling q - 1)%Z).
      { apply Qfloor_unique.
        - unfold Z.sub. rewrite inject_Z_plus, inject_Z_opp.
          change (inject_Z 1) with 1. lra.
        - replace (Qceiling q - 1 + 1)%Z with (Qceiling q) by lia.
          subst m. nra. }
      rewrite Hfl. unfold Z.sub. rewrite inject_Z_plus, inject_Z_opp.
      change (inject_Z 1) with 1. subst m. lra.
  - (* non-negative quotient: fmod is the floored remainder *)
    set (m := x - y * inject_Z (Qfloor q)).
    destruct (PyFloat.eqb m 0) eqn:Hm; cbn [negb].
    + apply eqb_eq in Hm. eexists; split; [reflexivity|]. lra.
    + assert (Hnn : PyFloat.ltb m 0 = false).
      { apply ltb_ge. subst m. nra. }
      rewrite Hnn. eexists; split; reflexivity.
Qed.

(** ** Grid Phase Estimator over exact rationals *)

(** With a positive tempo and a first beat, both variants take the branch
    and return the snapped remainder of Python's [%]. *)
Lemma grid_offset_branch (b t : Q) (rest : list Q) :
  0 < b ->
  exists m,
    PyFloat.mod_ t (60.0 / b) = Ok m /\
    m == Spec.Qmod t (60.0 / b) /\
    V1.grid_offset (Some b) (t :: rest)
      = Ok (if PyFloat.ltb (Qabs m) 0.02 then 0.0 else m) /\
    V2.grid_offset (Some b) (t :: rest)
      = Ok (if PyFloat.ltb (Qabs m) 0.02 then 0.0 else m).
Proof.
  intros Hb.
  assert (Hp : 0 < 60.0 / b).
  { apply Qlt_shift_div_l; [exact Hb | lra]. }
  destruct (mod_floor t (60.0 / b) Hp) as (m & Hm & Hspec).
  exists m. split; [exact Hm|]. split; [exact Hspec|].
  assert (Htr : PyFloat.truthy b = true).
  { unfold PyFloat.truthy. apply negb_true_iff, eqb_neq. lra. }
  assert (Hlt : PyFloat.ltb 0 b = true) by (apply ltb_lt; exact Hb).
  assert (Hdiv : PyFloat.div 60.0 b = Ok (60.0 / b)).
  { unfold PyFloat.div. replace (PyFloat.eqb b 0) with false; [reflexivity|].
    symmetry. apply eqb_neq. lra. }
  unfold V1.grid_offset, V2.grid_offset.
  rewrite Htr, Hlt. cbn [andb Py.list_truthy].
  rewrite Hdiv. cbn [rbind].
  change (Py.getitem (t :: rest) 0) with (Ok t). cbn [rbind].
  rewrite Hm. cbn [rbind]. unfold PyFloat.abs.
  split; [|reflexivity].
  destruct (PyFloat.ltb (Qabs m) 0.02); reflexivity.
Qed.

(** Without a positive tempo the offset stays at its initial [0.0]. *)
Lemma grid_offset_default (bpm : option Q) (beat_times : list Q) :
  (bpm = None \/ exists b, bpm = Some b /\ b <= 0) ->
  V1.grid_offset bpm beat_times = Ok 0.0 /\
  V2.grid_offset bpm beat_times = Ok 0.0.
Proof.
  intros [-> | (b & -> & Hb)]; [split; reflexivity|].
  unfold V1.grid_offset, V2.grid_offset.
  assert (Hlt : PyFloat.ltb 0 b = false) by (apply ltb_ge; exact Hb).
  rewrite Hlt, andb_false_r. cbn [andb]. split; reflexivity.
Qed.

(** ** Binary64: rounding *)

Lemma pow2_pos (e : Z) : 0 < B64.pow2 e.
Proof. apply Qpower_0_lt. reflexivity. Qed.

Lemma pow2_le (e1 e2 : Z) : (e1 <= e2)%Z -> B64.pow2 e1 <= B64.pow2 e2.
Proof. intros H. apply Qpower_le_compat_l; [exact H | discriminate]. Qed.

Lemma pow2_add (e1 e2 : Z) : B64.pow2 (e1 + e2) == B64.pow2 e1 * B64.pow2 e2.
Proof. apply Qpower_plus. discriminate. Qed.

Lemma pow2_inject (e : Z) : (0 <= e)%Z -> B64.pow2 e == inject_Z (2 ^ e).
Proof. intros H. unfold B64.pow2. rewrite Zpower_Qpower by exact H. reflexivity. Qed.

(** [floor_log2] does not overshoot. *)
Lemma floor_log2_le (a : Q) : 0 < a -> B64.pow2 (B64.floor_log2 a) <= a.
Proof.
  intros Ha. unfold B64.floor_log2.
  set (d := (Z.log2 (Qnum a) - Z.log2 (Z.pos (Qden a)))%Z).
  destruct (Qle_bool (B64.pow2 d) a) eqn:E.
  - apply Qle_bool_iff. exact E.
  - destruct a as [n m]. cbn [Qnum Qden] in d.
    assert (Hn : (0 < n)%Z).
    { unfold Qlt in Ha. cbn in Ha. lia. }
    destruct (Z.log2_spec n Hn) as [Hlo _].
    destruct (Z.log2_spec (Z.pos m) ltac:(lia)) as [_ Hhi].
    pose proof (Z.log2_nonneg n) as Hln.
    pose proof (Z.log2_nonneg (Z.pos m)) as Hlm.
    set (ln := Z.log2 n) in *. set (lm := Z.log2 (Z.pos m)) in *.
    (* pow2 (d - 1) * 2^(lm + 1) = 2^ln <= n *)
    assert (Hmul : B64.pow2 (d - 1) * B64.pow2 (lm + 1) == B64.pow2 ln).
    { rewrite <- pow2_add. replace (d - 1 + (lm + 1))%Z with ln by (subst d; lia).
      reflexivity. }
    assert (Hm : inject_Z (Z.pos m) <= B64.pow2 (lm + 1)).
    { rewrite pow2_inject by lia. rewrite <- Zle_Qle. unfold Z.succ in Hhi. lia. }
    assert (Hn' : B64.pow2 ln <= inject_Z n).
    { rewrite pow2_inject by lia. rewrite <- Zle_Qle. exact Hlo. }
    pose proof (pow2_pos (d - 1)) as Hp.
    assert (Hq : n # m == inject_Z n / inject_Z (Z.pos m)).
    { rewrite Qmake_Qdiv. reflexivity. }
    rewrite Hq. apply Qle_shift_div_l.
    + change 0 with (inject_Z 0). rewrite <- Zlt_Qlt. lia.
    + eapply Qle_trans; [|exact Hn']. rewrite <- Hmul.
      apply Qmult_le_l; [exact Hp | exact Hm].
Qed.

(** Rounding sees the number, not the fraction that writes it. *)
Lemma round_comp (q q' : Q) : q == q' -> B64.round q = B64.round q'.
Proof.
  intros H. unfold B64.round. rewrite (Qred_complete _ _ H). reflexivity.
Qed.

Lemma Qred_zero (q : Q) : q == 0 -> Qred q = 0.
Proof. intros H. apply (Qred_complete q 0 H). Qed.

Lemma round_zero (q : Q) : q == 0 -> B64.round q = B64.zero.
Proof.
  intros H. unfold B64.round. rewrite (Qred_zero _ H). reflexivity.
Qed.

(** The nearest integer is within a half. *)
Lemma rint_half (x : Q) :
  x - (1 # 2) <= inject_Z (PyFloat.rint x) /\ inject_Z (PyFloat.rint x) <= x + (1 # 2).
Proof.
  unfold PyFloat.rint.
  pose proof (Qfloor_le x) as Hf. pose proof (Qlt_floor x) as Hl.
  rewrite inject_Z_plus in Hl. change (inject_Z 1) with 1 in Hl.
  destruct (PyFloat.ltb (x - inject_Z (Qfloor x)) (1 # 2)) eqn:E1.
  - apply ltb_lt in E1. split; lra.
  - apply ltb_ge in E1.
    destruct (PyFloat.ltb (1 # 2) (x - inject_Z (Qfloor x))) eqn:E2.
    + rewrite inject_Z_plus. change (inject_Z 1) with 1. split; lra.
    + apply ltb_ge in E2. destruct (Z.even (Qfloor x)).
      * split; lra.
      * rewrite inject_Z_plus. change (inject_Z 1) with 1. split; lra.
Qed.

(** A number from the least positive binary64 on does not round to zero:
    it rounds to a positive number below [2^1024] or overflows. *)
Lemma round_pos (q : Q) :
  B64.pow2 (-1074) <= q ->
  (exists v, B64.round q = B64.Fin v /\ 0 < v /\ v < B64.pow2 1024) \/
  B64.round q = B64.Inf false.
Proof.
  intros Hq.
  pose proof (pow2_pos (-1074)) as Hmin.
  assert (Hq0 : 0 < q) by lra.
  unfold B64.round.
  pose proof (Qred_correct q) as Hr.
  set (r := Qred q) in *.
  assert (Hr0 : 0 < r) by (rewrite Hr; exact Hq0).
  assert (E0 : Qeq_bool r 0 = false).
  { apply eqb_neq. lra. }
  rewrite E0.
  assert (Hneg : PyFloat.ltb r 0 = false) by (apply ltb_ge; lra).
  rewrite Hneg.
  assert (Habs : Qabs r == r) by (apply Qabs_pos; lra).
  set (e := Z.max (B64.floor_log2 (Qabs r) - 52) (-1074)).
  assert (He : B64.pow2 e <= Qabs r).
  { subst e. destruct (Z.max_spec (B64.floor_log2 (Qabs r) - 52) (-1074)) as [[_ ->] | [_ ->]].
    - rewrite Habs, Hr. exact Hq.
    - eapply Qle_trans; [apply (pow2_le _ (B64.floor_log2 (Qabs r))); lia|].
      apply floor_log2_le. rewrite Habs. exact Hr0. }
  pose proof (pow2_pos e) as Hpe.
  set (x := Qabs r / B64.pow2 e).
  assert (Hx : 1 <= x).
  { subst x. apply Qle_shift_div_l; [exact Hpe | lra]. }
  destruct (rint_half x) as [Hlo _].
  set (n := PyFloat.rint x) in *.
  assert (Hn : (1 <= n)%Z).
  { assert (H : (0 < n)%Z); [|lia].
    rewrite Zlt_Qlt. change (inject_Z 0) with 0. lra. }
  assert (Hv : 0 < Qred (inject_Z n * B64.pow2 e)).
  { rewrite Qred_correct. apply Qmult_lt_0_compat; [|exact Hpe].
    change 0 with (inject_Z 0). rewrite <- Zlt_Qlt. lia. }
  destruct (Qle_bool (B64.pow2 1024) (Qred (inject_Z n * B64.pow2 e))) eqn:Eov.
  - right. reflexivity.
  - left. eexists. split; [reflexivity|]. split; [exact Hv|].
    apply Qnot_le_lt. intros Hle. apply Qle_bool_iff in Hle. congruence.
Qed.

(** ** Binary64: Python's [%] *)

(** For a dividend that is not negative, [fmod] is the remainder of the
    floored division. *)
Lemma fmod_nonneg (t y : Q) :
  0 <= t -> 0 < y -> PyFloat.fmod t y = Spec.Qmod t y.
Proof.
  intros Ht Hy. unfold PyFloat.fmod, PyFloat.Qtrunc, Spec.Qmod.
  assert (Hq : PyFloat.ltb (t / y) 0 = false).
  { apply ltb_ge. apply Qle_shift_div_l; [exact Hy | lra]. }
  rewrite Hq. reflexivity.
Qed.

(** For a negative dividend [fmod] is not positive, and one divisor below
    the remainder of the floored division unless it is zero. *)
Lemma fmod_neg (t y : Q) :
  t < 0 -> 0 < y ->
  PyFloat.fmod t y <= 0 /\
  (PyFloat.fmod t y == 0 -> Spec.Qmod t y == 0) /\
  (PyFloat.fmod t y < 0 -> PyFloat.fmod t y + y == Spec.Qmod t y).
Proof.
  intros Ht Hy.
  destruct (mod_floor t y Hy) as (m & Hm & Hspec).
  unfold PyFloat.mod_ in Hm.
  assert (Hy0 : PyFloat.eqb y 0 = false) by (apply eqb_neq; lra).
  assert (Hylt : PyFloat.ltb y 0 = false) by (apply ltb_ge; lra).
  rewrite Hy0, Hylt in Hm. cbn [xorb] in Hm.
  assert (Hle : PyFloat.fmod t y <= 0).
  { unfold PyFloat.fmod, PyFloat.Qtrunc.
    assert (Hx : y * (t / y) == t) by (apply Qdiv_mult_cancel; lra).
    assert (Hq : PyFloat.ltb (t / y) 0 = true).
    { apply ltb_lt. apply Qlt_shift_div_r; [exact Hy | lra]. }
    rewrite Hq. pose proof (Qle_ceiling (t / y)) as Hc.
    set (q := t / y) in *. nra. }
  split; [exact Hle|].
  destruct (PyFloat.eqb (PyFloat.fmod t y) 0) eqn:E; cbn [negb] in Hm.
  - apply eqb_eq in E. injection Hm as <-. split.
    + intros _. rewrite <- Hspec. reflexivity.
    + intros H. lra.
  - apply eqb_neq in E.
    assert (Hlt : PyFloat.fmod t y < 0) by lra.
    apply ltb_lt in Hlt. rewrite Hlt in Hm. injection Hm as <-.
    split; [intros H; contradiction | intros _; exact Hspec].
Qed.

(** Python's [%] on finite floats with a positive divisor: the remainder
    of the floored division, exact when the dividend is not negative and
    rounded to nearest when it is. *)
Lemma mod_finite (t y : Q) :
  0 < y ->
  B64.mod_ (B64.Fin t) (B64.Fin y)
  = Ok (if Qle_bool 0 t then B64.Fin (Qred (Spec.Qmod t y))
        else B64.round (Spec.Qmod t y)).
Proof.
  intros Hy. unfold B64.mod_.
  assert (Hy0 : Qeq_bool y 0 = false) by (apply eqb_neq; lra).
  assert (Hylt : PyFloat.ltb y 0 = false) by (apply ltb_ge; lra).
  cbn [B64.eqb B64.zero B64.fmod]. rewrite Hy0.
  unfold B64.truthy. cbn [B64.eqb B64.zero B64.ltb]. rewrite Hylt. cbn [xorb].
  destruct (Qle_bool 0 t) eqn:Et.
  - apply Qle_bool_iff in Et. rewrite (fmod_nonneg t y Et Hy).
    destruct (Qmod_range t y Hy) as [Hlo _].
    destruct (Qeq_bool (Qred (Spec.Qmod t y)) 0) eqn:E; cbn [negb].
    + apply Qeq_bool_iff in E. rewrite Qred_correct in E.
      rewrite (Qred_zero _ E). reflexivity.
    + assert (Hnn : PyFloat.ltb (Qred (Spec.Qmod t y)) 0 = false).
      { apply ltb_ge. rewrite Qred_correct. exact Hlo. }
      rewrite Hnn. reflexivity.
  - assert (Ht : t < 0).
    { apply Qnot_le_lt. intros H. apply Qle_bool_iff in H. congruence. }
    destruct (fmod_neg t y Ht Hy) as (Hle & Hz & Hn).
    destruct (Qeq_bool (Qred (PyFloat.fmod t y)) 0) eqn:E; cbn [negb].
    + apply Qeq_bool_iff in E. rewrite Qred_correct in E.
      rewrite (round_zero _ (Hz E)). reflexivity.
    + apply eqb_neq in E. rewrite Qred_correct in E.
      assert (Hlt : PyFloat.fmod t y < 0) by lra.
      assert (Hb : PyFloat.ltb (Qred (PyFloat.fmod t y)) 0 = true).
      { apply ltb_lt. rewrite Qred_correct. exact Hlt. }
      rewrite Hb. cbn [B64.add]. f_equal. apply round_comp.
      rewrite Qred_correct. apply Hn. exact Hlt.
Qed.

(** [%] raises only for a divisor that is zero. *)
Lemma mod_total (x p : B64.float) :
  B64.eqb p B64.zero = false -> exists raw, B64.mod_ x p = Ok raw.
Proof.
  intros Hp. unfold B64.mod_. rewrite Hp.
  destruct (B64.truthy (B64.fmod x p)); [|eexists; reflexivity].
  destruct (xorb _ _); eexists; reflexivity.
Qed.

(** ** Binary64: the beat period *)

Lemma lit_60 : B64.lit 60.0 = B64.Fin 60.
Proof. vm_compute. reflexivity. Qed.

(** The beat period of a finite tempo above zero is positive: a positive
    finite number, or [+inf] for a tempo so small that [60.0 / bpm]
    overflows. *)
Lemma beat_period_pos (b : Q) :
  0 < b -> b <= B64.max_float ->
  exists p,
    B64.div (B64.lit 60.0) (B64.Fin b) = Ok p /\
    ((exists y, p = B64.Fin y /\ 0 < y) \/ p = B64.Inf false).
Proof.
  intros Hb Hmax. rewrite lit_60. unfold B64.div.
  assert (Hb0 : Qeq_bool b 0 = false) by (apply eqb_neq; lra).
  cbn [B64.eqb B64.zero B64.fdiv]. rewrite Hb0.
  eexists. split; [reflexivity|].
  assert (Hq : B64.pow2 (-1074) <= 60 / b).
  { apply Qle_shift_div_l; [exact Hb|].
    pose proof (pow2_pos (-1074)) as Hp.
    assert (Hc : B64.pow2 (-1074) * B64.max_float <= 60).
    { apply Qle_bool_iff. vm_compute. reflexivity. }
    eapply Qle_trans; [|exact Hc].
    apply Qmult_le_l; [exact Hp | exact Hmax]. }
  destruct (round_pos _ Hq) as [(v & Hv & Hv0 & _) | Hinf].
  - left. exists v. split; [exact Hv | exact Hv0].
  - right. exact Hinf.
Qed.

(** ** Grid Phase Estimator in binary64 *)

(** With a finite tempo above zero and a first beat, both variants take
    the branch, neither the division nor [%] raises, and the result is the
    snapped remainder. *)
Lemma grid_offset_b64_branch (b : Q) (x : B64.float) (rest : list B64.float) :
  0 < b -> b <= B64.max_float ->
  exists p raw,
    B64.div (B64.lit 60.0) (B64.Fin b) = Ok p /\
    ((exists y, p = B64.Fin y /\ 0 < y) \/ p = B64.Inf false) /\
    B64.mod_ x p = Ok raw /\
    V1_b64.grid_offset (Some (B64.Fin b)) (x :: rest)
      = Ok (if B64.ltb (B64.abs raw) (B64.lit 0.02) then B64.zero else raw) /\
    V2_b64.grid_offset (Some (B64.Fin b)) (x :: rest)
      = Ok (if B64.ltb (B64.abs raw) (B64.lit 0.02) then B64.zero else raw).
Proof.
  intros Hb Hmax.
  destruct (beat_period_pos b Hb Hmax) as (p & Hdiv & Hp).
  assert (Hp0 : B64.eqb p B64.zero = false).
  { destruct Hp as [(y & -> & Hy) | ->]; [|reflexivity].
    cbn [B64.eqb B64.zero]. apply eqb_neq. lra. }
  destruct (mod_total x p Hp0) as (raw & Hraw).
  exists p, raw. split; [exact Hdiv|]. split; [exact Hp|]. split; [exact Hraw|].
  assert (Htr : B64.truthy (B64.Fin b) = true).
  { unfold B64.truthy. cbn [B64.eqb B64.zero]. apply negb_true_iff, eqb_neq. lra. }
  assert (Hlt : B64.ltb B64.zero (B64.Fin b) = true).
  { cbn [B64.ltb B64.zero]. apply ltb_lt. exact Hb. }
  unfold V1_b64.grid_offset, V2_b64.grid_offset.
  rewrite Htr, Hlt. cbn [andb Py.list_truthy].
  rewrite Hdiv. cbn [rbind].
  change (Py.getitem (x :: rest) 0) with (Ok x). cbn [rbind].
  rewrite Hraw. cbn [rbind].
  split; [|reflexivity].
  destruct (B64.ltb (B64.abs raw) (B64.lit 0.02)); reflexivity.
Qed.

(** Without a tempo above zero the offset stays at its initial 0.0. *)
Lemma grid_offset_b64_default (bpm : option B64.float) (beat_times : list B64.float) :
  (bpm = None \/ exists x, bpm = Some x /\ B64.ltb B64.zero x = false) ->
  V1_b64.grid_offset bpm beat_times = Ok B64.zero /\
  V2_b64.grid_offset bpm beat_times = Ok B64.zero.
Proof.
  intros [-> | (x & -> & Hx)]; [split; reflexivity|].
  unfold V1_b64.grid_offset, V2_b64.grid_offset.
  rewrite Hx, andb_false_r. cbn [andb]. split; reflexivity.
Qed.

(** A tempo of [+inf] passes the test [bpm > 0]; its beat period is 0.0
    and [%] raises. *)
Lemma grid_offset_b64_inf (x : B64.float) (rest : list B64.float) :
  V1_b64.grid_offset (Some (B64.Inf false)) (x :: rest)
    = Raise (ZeroDivisionError "float modulo") /\
  V2_b64.grid_offset (Some (B64.Inf false)) (x :: rest)
    = Raise (ZeroDivisionError "float modulo").
Proof.
  unfold V1_b64.grid_offset, V2_b64.grid_offset.
  rewrite lit_60. cbn. split; reflexivity.
Qed.

(** C1 (amended): for a finite tempo above zero and a first beat that is
    finite and not negative, the grid offset of both variants is computed
    without an exception and lies in [0, period), where period is the
    float 60.0 / bpm; for a tempo that is null or not above zero the
    offset is 0.0. *)
Theorem grid_offset_within_period_b64 :
  (forall (b t : Q) (rest : list B64.float),
     0 < b -> b <= B64.max_float -> 0 <= t ->
     exists period off,
       B64.div (B64.lit 60.0) (B64.Fin b) = Ok period /\
       V1_b64.grid_offset (Some (B64.Fin b)) (B64.Fin t :: rest) = Ok off /\
       V2_b64.grid_offset (Some (B64.Fin b)) (B64.Fin t :: rest) = Ok off /\
       B64.leb B64.zero off = true /\ B64.ltb off period = true)
  /\
  (forall (bpm : option B64.float) (beat_times : list B64.float),
     (bpm = None \/ exists x, bpm = Some x /\ B64.ltb B64.zero x = false) ->
     V1_b64.grid_offset bpm beat_times = Ok B64.zero /\
     V2_b64.grid_offset bpm beat_times = Ok B64.zero).
Proof.
  split; [|apply grid_offset_b64_default].
  intros b t rest Hb Hmax Ht.
  destruct (grid_offset_b64_branch b (B64.Fin t) rest Hb Hmax)
    as (p & raw & Hdiv & Hp & Hraw & H1 & H2).
  exists p. eexists. split; [exact Hdiv|]. split; [exact H1|]. split; [exact H2|].
  assert (Hraw' : B64.leb B64.zero raw = true /\ B64.ltb raw p = true).
  { destruct Hp as [(y & -> & Hy) | ->].
    - rewrite (mod_finite t y Hy) in Hraw.
      assert (Et : Qle_bool 0 t = true) by (apply Qle_bool_iff; exact Ht).
      rewrite Et in Hraw. injection Hraw as <-.
      destruct (Qmod_range t y Hy) as [Hlo Hhi].
      cbn [B64.leb B64.ltb B64.zero]. split.
      + apply Qle_bool_iff. rewrite Qred_correct. exact Hlo.
      + apply ltb_lt. rewrite Qred_correct. exact Hhi.
    - unfold B64.mod_ in Hraw. cbn [B64.eqb B64.zero B64.fmod] in Hraw.
      unfold B64.truthy in Hraw. cbn [B64.eqb B64.zero B64.ltb] in Hraw.
      assert (Hn : PyFloat.ltb t 0 = false) by (apply ltb_ge; exact Ht).
      rewrite Hn in Hraw. cbn [xorb] in Hraw.
      destruct (negb (Qeq_bool t 0)); injection Hraw as <-.
      + cbn [B64.leb B64.ltb B64.zero negb]. split; [|reflexivity].
        apply Qle_bool_iff. exact Ht.
      + split; reflexivity. }
  assert (Hz : B64.leb B64.zero B64.zero = true /\ B64.ltb B64.zero p = true).
  { split; [reflexivity|].
    destruct Hp as [(y & -> & Hy) | ->]; [|reflexivity].
    cbn [B64.ltb B64.zero]. apply ltb_lt. exact Hy. }
  destruct (B64.ltb (B64.abs raw) (B64.lit 0.02)); assumption.
Qed.

(** C2 (amended): for a finite tempo above zero and at least one beat,
    both variants compute the beat period 60.0 / bpm (the binary64 nearest
    the quotient) and raw = first beat % period without an exception; for
    a finite first beat and a finite period raw is the remainder of the
    floored division, exact when the first beat is not negative and
    rounded to nearest when it is; the offset is 0.0 when |raw| is below
    0.02 and raw otherwise. *)
Theorem grid_offset_snap_b64 (b : Q) (x : B64.float) (rest : list B64.float) :
  0 < b -> b <= B64.max_float ->
  exists beatPeriod raw off,
    beatPeriod = B64.round (60 / b) /\
    B64.mod_ x beatPeriod = Ok raw /\
    (forall t y, x = B64.Fin t -> beatPeriod = B64.Fin y ->
       raw = if Qle_bool 0 t then B64.Fin (Qred (Spec.Qmod t y))
             else B64.round (Spec.Qmod t y)) /\
    V1_b64.grid_offset (Some (B64.Fin b)) (x :: rest) = Ok off /\
    V2_b64.grid_offset (Some (B64.Fin b)) (x :: rest) = Ok off /\
    (B64.ltb (B64.abs raw) (B64.lit 0.02) = true -> off = B64.zero) /\
    (B64.ltb (B64.abs raw) (B64.lit 0.02) = false -> off = raw).
Proof.
  intros Hb Hmax.
  destruct (grid_offset_b64_branch b x rest Hb Hmax)
    as (p & raw & Hdiv & Hp & Hraw & H1 & H2).
  exists p, raw. eexists.
  split.
  { rewrite lit_60 in Hdiv. unfold B64.div in Hdiv.
    assert (Hb0 : Qeq_bool b 0 = false) by (apply eqb_neq; lra).
    cbn [B64.eqb B64.zero B64.fdiv] in Hdiv. rewrite Hb0 in Hdiv.
    injection Hdiv as <-. reflexivity. }
  split; [exact Hraw|].
  split.
  { intros t y -> ->.
    assert (Hy : 0 < y).
    { destruct Hp as [(y' & Heq & Hy') | Heq]; [|discriminate].
      injection Heq as ->. exact Hy'. }
    rewrite (mod_finite t y Hy) in Hraw. injection Hraw as <-. reflexivity. }
  split; [exact H1|]. split; [exact H2|].
  destruct (B64.ltb (B64.abs raw) (B64.lit 0.02)); split; congruence.
Qed.

(** ** Stability Scorer in binary64 *)

Lemma lit_0 : B64.lit 0.0 = B64.zero.
Proof. vm_compute. reflexivity. Qed.

Lemma lit_1 : B64.lit 1.0 = B64.one.
Proof. vm_compute. reflexivity. Qed.

(** [np.diff] holds the intervals between consecutive elements. *)
Lemma np_diff_intervals (a : list B64.float) : B64.np_diff a = Spec.intervals a.
Proof.
  unfold Spec.intervals.
  induction a as [|x [|y rest] IH]; try reflexivity.
  change (B64.np_diff (x :: y :: rest)) with (B64.sub y x :: B64.np_diff (y :: rest)).
  rewrite IH. reflexivity.
Qed.

Lemma np_diff_b64_lookup (a : list B64.float) (i : nat) :
  B64.np_diff a !! i
  = match a !! i, a !! S i with
    | Some t, Some u => Some (B64.sub u t)
    | _, _ => None
    end.
Proof.
  revert i. induction a as [|x [|y rest] IH]; intros i.
  - reflexivity.
  - destruct i as [|[|i]]; reflexivity.
  - destruct i as [|i].
    + reflexivity.
    + change (B64.np_diff (x :: y :: rest) !! S i)
        with (B64.np_diff (y :: rest) !! i).
      rewrite IH. reflexivity.
Qed.

(** [np.all(np.diff(a) > 0)] says that every interval is above zero. *)
Lemma np_all_pos_b64_diff (a : list B64.float) :
  B64.np_all_pos (B64.np_diff a) = true <->
  (forall i t u, a !! i = Some t -> a !! S i = Some u ->
                 B64.ltb B64.zero (B64.sub u t) = true).
Proof.
  unfold B64.np_all_pos. rewrite forallb_forall. split.
  - intros H i t u Ht Hu. apply H.
    apply list_elem_of_In, list_elem_of_lookup. exists i.
    rewrite np_diff_b64_lookup, Ht, Hu. reflexivity.
  - intros H d Hd. apply list_elem_of_In, list_elem_of_lookup in Hd as [i Hi].
    rewrite np_diff_b64_lookup in Hi.
    destruct (a !! i) as [t|] eqn:Ht; [|discriminate].
    destruct (a !! S i) as [u|] eqn:Hu; [|discriminate].
    injection Hi as <-. eapply H; eauto.
Qed.

(** [np.std] is the standard deviation of section 4.4. *)
Lemma np_std_stddev (xs : list B64.float) : B64.np_std xs = Spec.stddev xs.
Proof.
  unfold B64.np_std, Spec.stddev, Spec.mean, B64.np_mean.
  rewrite map_map, length_map. reflexivity.
Qed.

(** [np.clip] to [[0.0, 1.0]] is the clipping of section 4.4. *)
Lemma np_clip_unit_spec (x : B64.float) :
  B64.same (B64.np_clip x B64.zero B64.one) (Spec.clip x B64.zero B64.one).
Proof.
  unfold B64.np_clip, B64.maximum, B64.minimum, Spec.clip.
  destruct x as [q | [|] | ]; cbn; try reflexivity.
  destruct (PyFloat.ltb 0 q) eqn:E0; cbn.
  - apply ltb_lt in E0.
    assert (En : PyFloat.ltb q 0 = false) by (apply ltb_ge; lra).
    rewrite En.
    destruct (PyFloat.ltb q 1) eqn:E1.
    + apply ltb_lt in E1.
      assert (E1' : PyFloat.ltb 1 q = false) by (apply ltb_ge; lra).
      rewrite E1'. cbn. reflexivity.
    + apply ltb_ge in E1.
      destruct (PyFloat.ltb 1 q) eqn:E1'; [reflexivity|].
      apply ltb_ge in E1'. cbn [B64.same]. apply Qle_antisym; assumption.
  - apply ltb_ge in E0.
    destruct (PyFloat.ltb q 0) eqn:En; cbn; [reflexivity|].
    apply ltb_ge in En.
    assert (E1' : PyFloat.ltb 1 q = false) by (apply ltb_ge; lra).
    rewrite E1'. cbn [B64.same]. apply Qle_antisym; assumption.
Qed.

(** [np.clip] to [[0.0, 1.0]] lets a NaN through and lands in the unit
    interval otherwise. *)
Lemma np_clip_unit_range (x : B64.float) :
  let c := B64.np_clip x B64.zero B64.one in
  c = B64.NaN \/ (B64.leb B64.zero c = true /\ B64.leb c B64.one = true).
Proof.
  unfold B64.np_clip, B64.maximum, B64.minimum.
  destruct x as [q | [|] | ]; cbn; auto.
  destruct (PyFloat.ltb 0 q) eqn:E0; cbn; [|auto].
  apply ltb_lt in E0.
  destruct (PyFloat.ltb q 1) eqn:E1; cbn; [|auto].
  apply ltb_lt in E1. right. split; apply Qle_bool_iff; lra.
Qed.

(** C3 (amended): the confidence of both variants is null, NaN, or within
    [0, 1]; it is null with fewer than three beats or with a consecutive
    interval that is not above zero, and otherwise it is
    clip(1 - stddev(intervals) / (mean(intervals) + 1e-6), 0, 1), computed
    in binary64. *)
Theorem confidence_null_nan_or_unit (beat_times : list B64.float) :
  V2_b64.confidence_of beat_times = V1_b64.stability beat_times /\
  (V1_b64.stability beat_times = None \/
   exists c, V1_b64.stability beat_times = Some c /\
     (c = B64.NaN \/ (B64.leb B64.zero c = true /\ B64.leb c B64.one = true))) /\
  ((length beat_times < 3)%nat -> V1_b64.stability beat_times = None) /\
  ((exists i t u, beat_times !! i = Some t /\ beat_times !! S i = Some u /\
                  B64.ltb B64.zero (B64.sub u t) = false) ->
   V1_b64.stability beat_times = None) /\
  ((3 <= length beat_times)%nat ->
   (forall i t u, beat_times !! i = Some t -> beat_times !! S i = Some u ->
                  B64.ltb B64.zero (B64.sub u t) = true) ->
   exists c, V1_b64.stability beat_times = Some c /\
             B64.same c (Spec.confidence beat_times)).
Proof.
  split; [reflexivity|]. unfold V1_b64.stability.
  rewrite lit_0, lit_1.
  destruct (3 <=? length beat_times)%nat eqn:Hlen.
  - apply Nat.leb_le in Hlen.
    destruct (B64.np_all_pos (B64.np_diff beat_times)) eqn:Hall.
    + split; [right; eexists; split; [reflexivity | apply np_clip_unit_range]|].
      split; [intros; lia|].
      split.
      * intros (i & t & u & Ht & Hu & Hle).
        pose proof (proj1 (np_all_pos_b64_diff beat_times) Hall i t u Ht Hu).
        congruence.
      * intros _ _. eexists. split; [reflexivity|].
        unfold Spec.confidence.
        rewrite np_std_stddev, np_diff_intervals.
        apply np_clip_unit_spec.
    + split; [left; reflexivity|].
      split; [reflexivity|]. split; [reflexivity|].
      intros _ Hinc. apply np_all_pos_b64_diff in Hinc. congruence.
  - apply Nat.leb_gt in Hlen.
    split; [left; reflexivity|].
    split; [reflexivity|]. split; [reflexivity|]. intros; lia.
Qed.

(** ** Downbeat Inferrer *)

Lemma getitem_lookup {A : Type} (l : list A) (i : Z) (x : A) :
  (0 <= i)%Z -> l !! Z.to_nat i = Some x -> Py.getitem l i = Ok x.
Proof.
  intros Hi Hx. unfold Py.getitem.
  pose proof (lookup_lt_Some _ _ _ Hx) as Hlt.
  assert (Hneg : (i <? 0)%Z = false) by (apply Z.ltb_ge; lia).
  assert (Hin : (Z.of_nat (length l) <=? i)%Z = false) by (apply Z.leb_gt; lia).
  cbv zeta. rewrite Hneg. rewrite Hneg, Hin. cbn [orb]. rewrite Hx. reflexivity.
Qed.

(** The comprehension over [range(i, len, N)] never raises; it yields a
    subsequence of the beats from index [i] on, whose [k]-th element is
    the beat at index [i + k * N]. *)
Lemma comprehension_range_up (beat_times : list Q) (N : Z) :
  (1 <= N)%Z ->
  forall (fuel : nat) (i : Z), (0 <= i)%Z ->
  exists r,
    Py.comprehension (fun j => Py.getitem beat_times j)
      (Py.range_up fuel i (Z.of_nat (length beat_times)) N) = Ok r /\
    r `sublist_of` drop (Z.to_nat i) beat_times /\
    (length r <= fuel)%nat /\
    (forall k, (k < fuel)%nat ->
       r !! k = beat_times !! (Z.to_nat i + k * Z.to_nat N)%nat).
Proof.
  intros HN fuel. induction fuel as [|fuel IH]; intros i Hi.
  - exists []. cbn. repeat split; [apply sublist_nil_l | lia | intros; lia].
  - cbn [Py.range_up].
    destruct (i <? Z.of_nat (length beat_times))%Z eqn:Hlt.
    + apply Z.ltb_lt in Hlt.
      destruct (lookup_lt_is_Some_2 beat_times (Z.to_nat i) ltac:(lia)) as [x Hx].
      destruct (IH (i + N)%Z ltac:(lia)) as (r & Hr & Hsub & Hlen & Hk).
      exists (x :: r). cbn [Py.comprehension].
      rewrite (getitem_lookup _ _ _ Hi Hx). cbn [rbind]. rewrite Hr. cbn [rbind].
      split; [reflexivity|]. split; [|split].
      * rewrite (drop_S _ _ _ Hx). apply sublist_skip.
        etrans; [exact Hsub|].
        replace (Z.to_nat (i + N)) with (S (Z.to_nat i) + (Z.to_nat N - 1))%nat by lia.
        rewrite <- drop_drop. apply sublist_drop.
      * cbn [length]. lia.
      * intros [|k] Hkf.
        -- cbn. rewrite Nat.add_0_r. symmetry. exact Hx.
        -- change ((x :: r) !! S k) with (r !! k). rewrite (Hk k ltac:(lia)).
           f_equal. lia.
    + apply Z.ltb_ge in Hlt. exists []. cbn [Py.comprehension].
      split; [reflexivity|]. split; [apply sublist_nil_l|].
      split; [cbn; lia|].
      intros k _. cbn. symmetry. apply lookup_ge_None. lia.
Qed.

(** C4: the Downbeat Inferrer of variant 2 returns, without raising, the
    beats at indices 0, N, 2N, ... (N = beatsPerBar), a subsequence of the
    beats in their order; the result is empty when there is no beat or
    beatsPerBar is below 1. *)
Theorem downbeats_every_nth (beat_times : list Q) (beats_per_bar : Z) :
  exists downbeats,
    V2._infer_downbeats_from_beats beat_times beats_per_bar = Ok downbeats /\
    ((1 <= beats_per_bar)%Z ->
     forall k : nat,
       downbeats !! k = beat_times !! (k * Z.to_nat beats_per_bar)%nat) /\
    downbeats `sublist_of` beat_times /\
    (beat_times = [] \/ (beats_per_bar < 1)%Z -> downbeats = []).
Proof.
  unfold V2._infer_downbeats_from_beats.
  destruct beat_times as [|t rest].
  { exists []. cbn. split; [reflexivity|]. split; [|split; [apply sublist_nil_l | auto]].
    intros _ k. reflexivity. }
  cbn [Py.list_truthy negb orb].
  destruct (beats_per_bar <? 1)%Z eqn:HN.
  { apply Z.ltb_lt in HN. exists [].
    split; [reflexivity|]. split; [intros; lia|].
    split; [apply sublist_nil_l | auto]. }
  apply Z.ltb_ge in HN.
  unfold Py.range.
  replace (beats_per_bar =? 0)%Z with false by (symmetry; apply Z.eqb_neq; lia).
  replace (beats_per_bar <? 0)%Z with false by (symmetry; apply Z.ltb_ge; lia).
  cbn [rbind]. rewrite Z.sub_0_r, Nat2Z.id.
  destruct (comprehension_range_up (t :: rest) beats_per_bar HN
              (length (t :: rest)) 0%Z ltac:(lia))
    as (r & Hr & Hsub & Hlen & Hk).
  exists r. split; [exact Hr|]. split; [|split].
  - intros _ k. destruct (decide (k < length (t :: rest))%nat) as [Hlt|Hge].
    + rewrite (Hk k Hlt). reflexivity.
    + rewrite (lookup_ge_None_2 r k) by lia.
      symmetry. apply lookup_ge_None. nia.
  - exact Hsub.
  - intros [Hnil | Hlt]; [discriminate | lia].
Qed.

(** ** Audio Normalizer *)

Ltac run_py :=
  unfold mbind, M_bind, mret, M_ret, bind, ret, raise, lift, try_except,
    try_finally, except_pass, mkstemp, os_remove, subprocess_run_check,
    print, stderr_write.

(** The input is a WAV file: nothing happens. *)
Lemma decode_wav (env : Env) (input_path : string) (w : World) :
  is_wav input_path = true ->
  V1._decode_to_wav env input_path w = (Ok (input_path, false), w) /\
  V2._decode_to_wav env input_path w = (Ok (input_path, false), w).
Proof.
  intros H. unfold V1._decode_to_wav, V2._decode_to_wav.
  unfold is_wav in H. rewrite H. split; reflexivity.
Qed.

(** The decoder exits with status zero: the temporary file stays, owned by
    the caller. *)
Lemma decode_done (env : Env) (input_path : string) (w : World) (err : bytes) :
  is_wav input_path = false ->
  run_process env (decoder_cmd env input_path w) = Exited 0 err ->
  let w' := log_call (decoder_cmd env input_path w)
              (set_files (fun fs => {[tmp_path_of env w]} ∪ fs) w) in
  V1._decode_to_wav env input_path w = (Ok (tmp_path_of env w, true), w') /\
  V2._decode_to_wav env input_path w = (Ok (tmp_path_of env w, true), w').
Proof.
  intros H Hrun. unfold V1._decode_to_wav, V2._decode_to_wav.
  unfold is_wav in H. rewrite H.
  run_py. cbn. unfold decoder_cmd, tmp_path_of in Hrun.
  unfold V1.ffmpeg_cmd, V2.ffmpeg_cmd in *.
  rewrite Hrun. split; reflexivity.
Qed.

(** The decoder exits with another status: the temporary file is removed
    and [RuntimeError] raised with the decoded standard error. *)
Lemma decode_nonzero (env : Env) (input_path : string) (w : World)
    (rc : Z) (err : bytes) :
  is_wav input_path = false ->
  run_process env (decoder_cmd env input_path w) = Exited rc err ->
  rc <> 0%Z ->
  let w' := set_files (fun fs => fs ∖ {[tmp_path_of env w]})
              (log_call (decoder_cmd env input_path w)
                 (set_files (fun fs => {[tmp_path_of env w]} ∪ fs) w)) in
  V1._decode_to_wav env input_path w
  = (Raise (RuntimeError ("ffmpeg failed to decode input: "
                          +:+ decode_utf8_ignore env err)), w') /\
  V2._decode_to_wav env input_path w
  = (Raise (RuntimeError ("ffmpeg decode failed: "
                          +:+ decode_utf8_ignore env err)), w').
Proof.
  intros H Hrun Hrc. unfold V1._decode_to_wav, V2._decode_to_wav.
  unfold is_wav in H. rewrite H.
  run_py. cbn. unfold decoder_cmd, tmp_path_of in Hrun.
  unfold V1.ffmpeg_cmd, V2.ffmpeg_cmd in *.
  rewrite Hrun. apply Z.eqb_neq in Hrc. rewrite Hrc.
  rewrite decide_True by set_solver. split; reflexivity.
Qed.

(** The decoder cannot be started: the [OSError] passes through the
    [except] clause, and the temporary file stays on disk. *)
Lemma decode_not_started (env : Env) (input_path : string) (w : World)
    (msg : string) :
  is_wav input_path = false ->
  run_process env (decoder_cmd env input_path w) = NotStarted msg ->
  let w' := log_call (decoder_cmd env input_path w)
              (set_files (fun fs => {[tmp_path_of env w]} ∪ fs) w) in
  V1._decode_to_wav env input_path w = (Raise (OSError msg), w') /\
  V2._decode_to_wav env input_path w = (Raise (OSError msg), w').
Proof.
  intros H Hrun. unfold V1._decode_to_wav, V2._decode_to_wav.
  unfold is_wav in H. rewrite H.
  run_py. cbn. unfold decoder_cmd, tmp_path_of in Hrun.
  unfold V1.ffmpeg_cmd, V2.ffmpeg_cmd in *.
  rewrite Hrun. split; reflexivity.
Qed.

(** The analysis proper (the body of [try] in [analyze] and [analyze_v2])
    calls the engine and computes, without touching the world:
    [pure_steps] splits on the result of each of its calls. *)
Ltac pure_steps :=
  repeat match goal with
         | |- context [librosa_beats ?e ?p] =>
             destruct (librosa_beats e p) as [[? ?]|?] eqn:?
         | |- context [librosa_beats_v2 ?e ?p] =>
             destruct (librosa_beats_v2 e p) as [[? ?]|?] eqn:?
         | |- context [V2._infer_downbeats_from_beats ?l ?n] =>
             destruct (V2._infer_downbeats_from_beats l n) eqn:?
         | |- context [V1.grid_offset ?b ?l] =>
             destruct (V1.grid_offset b l) eqn:?
         | |- context [V2.grid_offset ?b ?l] =>
             destruct (V2.grid_offset b l) eqn:?
         end.

(** A WAV input is analyzed in place: [analyze] does not change the
    world. *)
Lemma analyze_wav_world (np_sqrt : Q -> Q) (env : Env)
    (input_path prefer_stem : string) (w : World) :
  is_wav input_path = true ->
  snd (V1.analyze np_sqrt env input_path w) = w /\
  snd (V2.analyze_v2 np_sqrt env input_path prefer_stem w) = w.
Proof.
  intros H. destruct (decode_wav env input_path w H) as [H1 H2].
  unfold V1.analyze, V2.analyze_v2.
  run_py. rewrite H1, H2. split; pure_steps; reflexivity.
Qed.

(** C8: an input path whose extension is .wav in any letter case is
    returned as it is, marked not owned; the decoder is not started and no
    file is created or removed, by the normalizer and by the whole
    analysis (the world, with its files and its decoder calls, is
    unchanged). *)
Theorem wav_input_used_in_place (np_sqrt : Q -> Q) (env : Env)
    (input_path prefer_stem : string) (w : World) :
  Py.lower (snd (Py.splitext input_path)) = ".wav"%string ->
  V1._decode_to_wav env input_path w = (Ok (input_path, false), w) /\
  V2._decode_to_wav env input_path w = (Ok (input_path, false), w) /\
  snd (V1.analyze np_sqrt env input_path w) = w /\
  snd (V2.analyze_v2 np_sqrt env input_path prefer_stem w) = w.
Proof.
  intros Hext.
  assert (H : is_wav input_path = true).
  { unfold is_wav. rewrite Hext. reflexivity. }
  destruct (decode_wav env input_path w H) as [H1 H2].
  destruct (analyze_wav_world np_sqrt env input_path prefer_stem w H) as [H3 H4].
  auto.
Qed.

(** C6: when the decoder process exits with a non-zero status, the
    normalizer of both variants removes the temporary file it created and
    raises RuntimeError with the decoded standard error of the decoder in
    its message. *)
Theorem decode_failure_reported (env : Env) (input_path : string) (w : World)
    (rc : Z) (err : bytes) :
  is_wav input_path = false ->
  run_process env (decoder_cmd env input_path w) = Exited rc err ->
  rc <> 0%Z ->
  exists w',
    V1._decode_to_wav env input_path w
    = (Raise (RuntimeError ("ffmpeg failed to decode input: "
                            +:+ decode_utf8_ignore env err)), w') /\
    V2._decode_to_wav env input_path w
    = (Raise (RuntimeError ("ffmpeg decode failed: "
                            +:+ decode_utf8_ignore env err)), w') /\
    (tmp_path_of env w ∉ files w') /\
    files w' = files w ∖ {[tmp_path_of env w]}.
Proof.
  intros H Hrun Hrc.
  destruct (decode_nonzero env input_path w rc err H Hrun Hrc) as [H1 H2].
  eexists. split; [exact H1|]. split; [exact H2|].
  cbn. split.
  - rewrite elem_of_difference, elem_of_singleton. tauto.
  - apply set_eq. intros x.
    rewrite !elem_of_difference, elem_of_union, elem_of_singleton. tauto.
Qed.

(** ** The whole analysis *)

Ltac decode_steps input_path :=
  unfold V1._decode_to_wav, V2._decode_to_wav; run_py;
  destruct (Py.lower (snd (Py.splitext input_path)) =? ".wav")%string eqn:?;
  cbn;
  repeat match goal with
         | |- context [run_process ?e ?c] => destruct (run_process e c) eqn:?
         | |- context [(?rc =? 0)%Z] => destruct (rc =? 0)%Z eqn:?
         | |- context [decide ?P] => destruct (decide P)
         end;
  cbn.

(** Neither the normalizer nor the analysis writes to the output streams. *)
Lemma decode_streams (env : Env) (input_path : string) (w : World) :
  (stdout (snd (V1._decode_to_wav env input_path w)) = stdout w /\
   stderr (snd (V1._decode_to_wav env input_path w)) = stderr w) /\
  (stdout (snd (V2._decode_to_wav env input_path w)) = stdout w /\
   stderr (snd (V2._decode_to_wav env input_path w)) = stderr w).
Proof. split; decode_steps input_path; split; reflexivity. Qed.

(** The [finally] clause: whether the handle is owned, and whether the
    file is there to remove. *)
Ltac finally_steps :=
  repeat (cbn; match goal with
               | |- context [if ?b then _ else _] => destruct b
               end).

Lemma analyze_streams (np_sqrt : Q -> Q) (env : Env)
    (audio_path prefer_stem : string) (w : World) :
  (stdout (snd (V1.analyze np_sqrt env audio_path w)) = stdout w /\
   stderr (snd (V1.analyze np_sqrt env audio_path w)) = stderr w) /\
  (stdout (snd (V2.analyze_v2 np_sqrt env audio_path prefer_stem w)) = stdout w /\
   stderr (snd (V2.analyze_v2 np_sqrt env audio_path prefer_stem w)) = stderr w).
Proof.
  destruct (decode_streams env audio_path w) as [[H1 H2] [H3 H4]].
  unfold V1.analyze, V2.analyze_v2. run_py.
  split.
  - destruct (V1._decode_to_wav env audio_path w) as [[[wav del]|e] w1];
      cbn in H1, H2; rewrite <- H1, <- H2;
      pure_steps; cbn; finally_steps; split; reflexivity.
  - destruct (V2._decode_to_wav env audio_path w) as [[[wav del]|e] w1];
      cbn in H3, H4; rewrite <- H3, <- H4;
      pure_steps; cbn; finally_steps; split; reflexivity.
Qed.

(** C7: when the analysis of either variant raises, [main] writes nothing
    to standard output, writes the one record with the key error and the
    text of the exception to standard error, and exits with status 1. *)
Theorem failure_gives_error_result (np_sqrt : Q -> Q) (env : Env)
    (path prefer_stem : string) (w w1 : World) (e : exn) :
  (V1.analyze np_sqrt env path w = (Raise e, w1) ->
   let out := V1.main np_sqrt env path w in
   fst out = Ok 1%Z /\
   stdout (snd out) = stdout w /\
   stderr (snd out) = stderr w ++ [ {| error := str e |} ]) /\
  (V2.analyze_v2 np_sqrt env path prefer_stem w = (Raise e, w1) ->
   let out := V2.main np_sqrt env path prefer_stem w in
   fst out = Ok 1%Z /\
   stdout (snd out) = stdout w /\
   stderr (snd out) = stderr w ++ [ {| error := str e |} ]).
Proof.
  destruct (analyze_streams np_sqrt env path prefer_stem w) as [[H1 H2] [H3 H4]].
  split; intros Hraise out; subst out.
  - unfold V1.main. run_py. rewrite Hraise in *. cbn in *.
    rewrite H1, H2. auto.
  - unfold V2.main. run_py. rewrite Hraise in *. cbn in *.
    rewrite H3, H4. auto.
Qed.

(** ** Temporary file *)

(** [main] leaves the files as [analyze] leaves them. *)
Lemma main_files (np_sqrt : Q -> Q) (env : Env)
    (path prefer_stem : string) (w : World) :
  files (snd (V1.main np_sqrt env path w))
  = files (snd (V1.analyze np_sqrt env path w)) /\
  files (snd (V2.main np_sqrt env path prefer_stem w))
  = files (snd (V2.analyze_v2 np_sqrt env path prefer_stem w)).
Proof.
  unfold V1.main, V2.main. run_py.
  destruct (V1.analyze np_sqrt env path w) as [[g1|e1] w1].
  all: destruct (V2.analyze_v2 np_sqrt env path prefer_stem w) as [[g2|e2] w2].
  all: split; reflexivity.
Qed.

(** Where the decoder ran - whatever its exit status and whatever the
    engine did afterwards - the temporary file is gone after [analyze]. *)
Lemma temp_file_released (np_sqrt : Q -> Q) (env : Env)
    (path prefer_stem : string) (w : World) (rc : Z) (err : bytes) :
  is_wav path = false ->
  run_process env (decoder_cmd env path w) = Exited rc err ->
  files (snd (V1.analyze np_sqrt env path w)) = files w ∖ {[tmp_path_of env w]} /\
  files (snd (V2.analyze_v2 np_sqrt env path prefer_stem w))
  = files w ∖ {[tmp_path_of env w]}.
Proof.
  intros Hwav Hrun.
  assert (Hset : ({[tmp_path_of env w]} ∪ files w) ∖ {[tmp_path_of env w]}
                 = files w ∖ {[tmp_path_of env w]}).
  { apply set_eq. intros x.
    rewrite !elem_of_difference, elem_of_union, elem_of_singleton. tauto. }
  assert (Hin : tmp_path_of env w ∈ {[tmp_path_of env w]} ∪ files w).
  { apply elem_of_union. left. apply elem_of_singleton. reflexivity. }
  unfold V1.analyze, V2.analyze_v2. run_py.
  destruct (decide (rc = 0%Z)) as [-> | Hrc].
  - destruct (decode_done env path w err Hwav Hrun) as [H1 H2].
    rewrite H1, H2.
    split; pure_steps; cbn; (rewrite decide_True by exact Hin); exact Hset.
  - destruct (decode_nonzero env path w rc err Hwav Hrun Hrc) as [H1 H2].
    rewrite H1, H2. cbn. split; exact Hset.
Qed.

(** Where the decoder could not be started, the temporary file that
    [mkstemp] created is still on disk after [analyze]. *)
Lemma temp_file_left (np_sqrt : Q -> Q) (env : Env)
    (path prefer_stem : string) (w : World) (msg : string) :
  is_wav path = false ->
  run_process env (decoder_cmd env path w) = NotStarted msg ->
  V1.analyze np_sqrt env path w
  = (Raise (OSError msg),
     log_call (decoder_cmd env path w)
       (set_files (fun fs => {[tmp_path_of env w]} ∪ fs) w)) /\
  V2.analyze_v2 np_sqrt env path prefer_stem w
  = (Raise (OSError msg),
     log_call (decoder_cmd env path w)
       (set_files (fun fs => {[tmp_path_of env w]} ∪ fs) w)).
Proof.
  intros Hwav Hrun.
  destruct (decode_not_started env path w msg Hwav Hrun) as [H1 H2].
  unfold V1.analyze, V2.analyze_v2. run_py. rewrite H1, H2. split; reflexivity.
Qed.

(** C5, at the input where it fails: with no decoder executable to start,
    the run on song.mp3 of either variant ends with exit status 1 and the
    temporary file, which did not exist before, still on disk. *)
Theorem temp_file_left_when_decoder_missing :
  let tmp := tmp_path_of Examples.env_no_decoder Examples.world0 in
  let out1 := V1.main Examples.sqrt6 Examples.env_no_decoder "song.mp3"
                Examples.world0 in
  let out2 := V2.main Examples.sqrt6 Examples.env_no_decoder "song.mp3" "none"
                Examples.world0 in
  (tmp ∉ files Examples.world0) /\
  (fst out1 = Ok 1%Z /\ tmp ∈ files (snd out1)) /\
  (fst out2 = Ok 1%Z /\ tmp ∈ files (snd out2)).
Proof.
  intros tmp out1 out2. subst out1 out2.
  destruct (main_files Examples.sqrt6 Examples.env_no_decoder "song.mp3" "none"
              Examples.world0) as [F1 F2].
  destruct (temp_file_left Examples.sqrt6 Examples.env_no_decoder "song.mp3"
              "none" Examples.world0 _ eq_refl eq_refl) as [A1 A2].
  rewrite F1, F2, A1, A2.
  split; [|split; split].
  - apply (bool_decide_unpack _). vm_compute. exact I.
  - unfold V1.main. run_py. rewrite A1. reflexivity.
  - cbn. apply elem_of_union. left. apply elem_of_singleton. reflexivity.
  - unfold V2.main. run_py. rewrite A2. reflexivity.
  - cbn. apply elem_of_union. left. apply elem_of_singleton. reflexivity.
Qed.

(** ** What a successful analysis returns *)

(** Every field of the grid of variant 1 is a function of the tempo and the
    beat times the engine returned. *)
Lemma v1_analyze_ok (np_sqrt : Q -> Q) (env : Env) (path : string)
    (w w' : World) (g : BeatGrid) :
  V1.analyze np_sqrt env path w = (Ok g, w') ->
  exists wav tempo,
    librosa_beats env wav = Ok (tempo, beatTimesSec g) /\
    bpm g = V1.bpm_of_tempo tempo /\
    V1.grid_offset (bpm g) (beatTimesSec g) = Ok (gridOffsetSec g) /\
    confidence g = V1.stability np_sqrt (beatTimesSec g) /\
    beatsPerBar g = 4%Z /\
    downbeatTimesSec g = None.
Proof.
  unfold V1.analyze. run_py.
  destruct (V1._decode_to_wav env path w) as [[[wav del]|e] w1];
    [|discriminate].
  match goal with |- _ -> ?G => set (concl := G) end.
  pure_steps; finally_steps; cbn; intros H; inversion H; subst; subst concl; cbn.
  all: eexists _, _; split; [eassumption|]; auto 10.
Qed.

(** The same for variant 2, with the downbeats. *)
Lemma v2_analyze_ok (np_sqrt : Q -> Q) (env : Env) (path prefer_stem : string)
    (w w' : World) (g : BeatGrid) :
  V2.analyze_v2 np_sqrt env path prefer_stem w = (Ok g, w') ->
  exists wav tempo downbeats,
    librosa_beats_v2 env wav = Ok (tempo, beatTimesSec g) /\
    bpm g = V2.bpm_of_tempo tempo /\
    V2.grid_offset (bpm g) (beatTimesSec g) = Ok (gridOffsetSec g) /\
    confidence g = V2.confidence_of np_sqrt (beatTimesSec g) /\
    beatsPerBar g = 4%Z /\
    V2._infer_downbeats_from_beats (beatTimesSec g) (beatsPerBar g) = Ok downbeats /\
    downbeatTimesSec g = Some downbeats.
Proof.
  unfold V2.analyze_v2. run_py.
  destruct (V2._decode_to_wav env path w) as [[[wav del]|e] w1];
    [|discriminate].
  match goal with |- _ -> ?G => set (concl := G) end.
  pure_steps; finally_steps; cbn; intros H; inversion H; subst; subst concl; cbn.
  all: eexists _, _, _; split; [eassumption|]; repeat split; eauto.
Qed.

(** C9: the grid offset, the confidence and the downbeats of a result are
    determined by its tempo, beat times and beats per bar alone: two
    successful runs, in whatever environments, worlds and on whatever
    paths, that agree on these agree on the three outputs. *)
Theorem estimators_depend_on_inputs_only (np_sqrt : Q -> Q) (env1 env2 : Env)
    (p1 p2 s1 s2 : string) (w1 w2 w1' w2' : World) (g1 g2 : BeatGrid) :
  bpm g1 = bpm g2 ->
  beatTimesSec g1 = beatTimesSec g2 ->
  beatsPerBar g1 = beatsPerBar g2 ->
  (V1.analyze np_sqrt env1 p1 w1 = (Ok g1, w1') ->
   V1.analyze np_sqrt env2 p2 w2 = (Ok g2, w2') ->
   gridOffsetSec g1 = gridOffsetSec g2 /\
   confidence g1 = confidence g2) /\
  (V2.analyze_v2 np_sqrt env1 p1 s1 w1 = (Ok g1, w1') ->
   V2.analyze_v2 np_sqrt env2 p2 s2 w2 = (Ok g2, w2') ->
   gridOffsetSec g1 = gridOffsetSec g2 /\
   confidence g1 = confidence g2 /\
   downbeatTimesSec g1 = downbeatTimesSec g2).
Proof.
  intros Hbpm Hbeats Hbars. split; intros R1 R2.
  - apply v1_analyze_ok in R1 as (? & ? & _ & _ & O1 & C1 & _).
    apply v1_analyze_ok in R2 as (? & ? & _ & _ & O2 & C2 & _).
    rewrite Hbpm, Hbeats in O1. rewrite Hbeats in C1.
    split; congruence.
  - apply v2_analyze_ok in R1 as (? & ? & d1 & _ & _ & O1 & C1 & _ & D1 & E1).
    apply v2_analyze_ok in R2 as (? & ? & d2 & _ & _ & O2 & C2 & _ & D2 & E2).
    rewrite Hbpm, Hbeats in O1. rewrite Hbeats in C1.
    rewrite Hbeats, Hbars in D1.
    repeat split; congruence.
Qed.

(** ** Tempo zero *)

Lemma rint_zero (x : Q) : x == 0 -> PyFloat.rint x = 0%Z.
Proof.
  intros Hx. unfold PyFloat.rint.
  assert (Hf : Qfloor x = 0%Z).
  { rewrite (Qfloor_comp _ _ Hx). reflexivity. }
  rewrite Hf.
  assert (Hlt : PyFloat.ltb (x - inject_Z 0) (1 # 2) = true).
  { apply ltb_lt. change (inject_Z 0) with 0. lra. }
  rewrite Hlt. reflexivity.
Qed.

Lemma np_round_zero (x : Q) (decimals : nat) :
  x == 0 -> PyFloat.np_round x decimals == 0.
Proof.
  intros Hx. unfold PyFloat.np_round.
  rewrite rint_zero by (rewrite Hx; lra).
  change (inject_Z 0) with 0. unfold Qdiv. lra.
Qed.

(** C10: when the engine returns a tempo of zero, the grid of either
    variant reports a bpm that is present and zero, with grid offset 0.0;
    the bpm is null exactly when the engine's tempo is absent. *)
Theorem zero_tempo_is_reported (np_sqrt : Q -> Q) (env : Env)
    (path prefer_stem : string) (w w' : World) (g : BeatGrid) :
  (V1.analyze np_sqrt env path w = (Ok g, w') ->
   exists wav tempo,
     librosa_beats env wav = Ok (tempo, beatTimesSec g) /\
     (bpm g = None <-> tempo = None) /\
     (forall t, tempo = Some t -> t == 0 ->
        (exists b, bpm g = Some b /\ b == 0) /\ gridOffsetSec g = 0.0)) /\
  (V2.analyze_v2 np_sqrt env path prefer_stem w = (Ok g, w') ->
   exists wav tempo,
     librosa_beats_v2 env wav = Ok (tempo, beatTimesSec g) /\
     (bpm g = None <-> tempo = None) /\
     (forall t, tempo = Some t -> t == 0 ->
        (exists b, bpm g = Some b /\ b == 0) /\ gridOffsetSec g = 0.0)).
Proof.
  split; intros R.
  - apply v1_analyze_ok in R as (wav & tempo & Heng & Hbpm & Hoff & _).
    exists wav, tempo. split; [exact Heng|]. split.
    + rewrite Hbpm. destruct tempo; cbn; split; congruence.
    + intros t -> Ht. cbn in Hbpm.
      pose proof (np_round_zero t 1 Ht) as Hz.
      split; [eauto|].
      destruct (grid_offset_default (bpm g) (beatTimesSec g)) as [H0 _].
      { right. eexists. split; [exact Hbpm | lra]. }
      congruence.
  - apply v2_analyze_ok in R as (wav & tempo & d & Heng & Hbpm & Hoff & _).
    exists wav, tempo. split; [exact Heng|]. split.
    + rewrite Hbpm. destruct tempo; cbn; split; congruence.
    + intros t -> Ht. cbn in Hbpm.
      pose proof (np_round_zero t 1 Ht) as Hz.
      split; [eauto|].
      destruct (grid_offset_default (bpm g) (beatTimesSec g)) as [_ H0].
      { right. eexists. split; [exact Hbpm | lra]. }
      congruence.
Qed.

(** ** The outcome of [main] *)

(** X18: [main] itself never raises, and every run writes exactly one
    record: the grid on standard output with exit status 0 when the
    analysis returned, or the error on standard error with exit status 1
    when it raised; the other stream is left as it was. *)
Lemma main_outcome (np_sqrt : Q -> Q) (env : Env)
    (path prefer_stem : string) (w : World) :
  (let run := V1.analyze np_sqrt env path w in
   let out := V1.main np_sqrt env path w in
   match fst run with
   | Ok g =>
       fst out = Ok 0%Z /\ stdout (snd out) = stdout w ++ [g] /\
       stderr (snd out) = stderr w
   | Raise e =>
       fst out = Ok 1%Z /\ stdout (snd out) = stdout w /\
       stderr (snd out) = stderr w ++ [ {| error := str e |} ]
   end) /\
  (let run := V2.analyze_v2 np_sqrt env path prefer_stem w in
   let out := V2.main np_sqrt env path prefer_stem w in
   match fst run with
   | Ok g =>
       fst out = Ok 0%Z /\ stdout (snd out) = stdout w ++ [g] /\
       stderr (snd out) = stderr w
   | Raise e =>
       fst out = Ok 1%Z /\ stdout (snd out) = stdout w /\
       stderr (snd out) = stderr w ++ [ {| error := str e |} ]
   end).
Proof.
  destruct (analyze_streams np_sqrt env path prefer_stem w) as [[H1 H2] [H3 H4]].
  unfold V1.main, V2.main. run_py. split.
  - destruct (V1.analyze np_sqrt env path w) as [[g|e] w1];
      cbn in *; rewrite H1, H2; auto.
  - destruct (V2.analyze_v2 np_sqrt env path prefer_stem w) as [[g|e] w1];
      cbn in *; rewrite H3, H4; auto.
Qed.

(** ** The scenarios of the specification, section 8 *)

(** Scenario A: 120 bpm and beats every half second from 0.50 on. *)
Example scenario_A :
  V1_b64.grid_offset (Some (B64.lit 120.0))
    [B64.lit 0.50; B64.lit 1.00; B64.lit 1.50; B64.lit 2.00] = Ok B64.zero /\
  V1_b64.stability [B64.lit 0.50; B64.lit 1.00; B64.lit 1.50; B64.lit 2.00]
  = Some B64.one.
Proof. vm_compute. split; reflexivity. Qed.

(** Scenario B: a first beat 15 ms into the period is snapped to zero. *)
Example scenario_B :
  V1_b64.grid_offset (Some (B64.lit 128.0))
    [B64.lit 0.015; B64.lit 0.483; B64.lit 0.951] = Ok B64.zero /\
  V2_b64.grid_offset (Some (B64.lit 128.0))
    [B64.lit 0.015; B64.lit 0.483; B64.lit 0.951] = Ok B64.zero.
Proof. vm_compute. split; reflexivity. Qed.

(** Scenario C: nine beats, four to the bar: the beats at 0, 4 and 8. *)
Example scenario_C :
  V2._infer_downbeats_from_beats Examples.nine_beats 4 = Ok [0.5; 2.5; 4.5].
Proof. reflexivity. Qed.

(** Scenario D: the decoder exits with a non-zero status. *)
Example scenario_D :
  let out := V2.main Examples.sqrt6 Examples.env_decode_fails "song.mp3" "none"
               Examples.world0 in
  fst out = Ok 1%Z /\
  stdout (snd out) = [] /\
  stderr (snd out)
  = [ {| error := "ffmpeg decode failed: song.mp3: Invalid data found" |} ] /\
  files (snd out) = files Examples.world0.
Proof.
  cbv zeta. split; [reflexivity|]. split; [reflexivity|]. split; [reflexivity|].
  destruct (main_files Examples.sqrt6 Examples.env_decode_fails "song.mp3" "none"
              Examples.world0) as [_ F].
  destruct (temp_file_released Examples.sqrt6 Examples.env_decode_fails
              "song.mp3" "none" Examples.world0 1
              (list_byte_of_string "song.mp3: Invalid data found")
              eq_refl eq_refl) as [_ R].
  rewrite F, R. apply set_eq. intros x.
  rewrite elem_of_difference, elem_of_singleton. split; [tauto|].
  intros Hx. split; [exact Hx|]. intros ->.
  revert Hx. apply (bool_decide_unpack _). vm_compute. exact I.
Qed.

(** Scenario E: two beats give no confidence and one downbeat. *)
Example scenario_E :
  V2.confidence_of Examples.sqrt6 [0.5; 1.0] = None /\
  V2._infer_downbeats_from_beats [0.5; 1.0] 4 = Ok [0.5].
Proof. split; reflexivity. Qed.

(** ** The binary64 model at numbers worked out by hand *)

(** 60.0 / 75.0 is not four fifths, and a first beat on the grid of 75 or
    150 bpm is reported almost a whole period late. *)
Example period_is_rounded :
  B64.div (B64.lit 60.0) (B64.lit 75.0) = Ok (B64.lit 0.8) /\
  B64.lit 0.8 = B64.Fin (3602879701896397 # 4503599627370496) /\
  V1_b64.grid_offset (Some (B64.lit 75.0)) [B64.lit 4.0]
    = Ok (B64.lit 0.7999999999999998) /\
  V2_b64.grid_offset (Some (B64.lit 150.0)) [B64.lit 2.0]
    = Ok (B64.lit 0.3999999999999999).
Proof. vm_compute. repeat split; reflexivity. Qed.

(** [np.round] multiplies, rounds and divides in binary64; a tempo of
    1e308 overflows to [+inf]. *)
Example tempo_rounding :
  V1_b64.bpm_of_tempo (Some (B64.lit 120.35)) = Some (B64.lit 120.4) /\
  V1_b64.bpm_of_tempo (Some (B64.lit 0.15)) = Some (B64.lit 0.2) /\
  V1_b64.bpm_of_tempo (Some (B64.lit 120.04)) = Some (B64.lit 120.0) /\
  V2_b64.bpm_of_tempo (Some (B64.lit 1e308)) = Some (B64.Inf false).
Proof. vm_compute. repeat split; reflexivity. Qed.

(** Evenly spaced decimal beat times are not evenly spaced floats. *)
Example confidence_is_rounded :
  V1_b64.stability [B64.lit 0.1; B64.lit 0.2; B64.lit 0.3; B64.lit 0.4]
    = Some (B64.lit 0.9999999999999998) /\
  V2_b64.confidence_of [B64.lit (-0.1); B64.lit 0.0; B64.lit 0.1; B64.lit 0.2]
    = Some (B64.lit 0.9999999999999999) /\
  V1_b64.stability [B64.lit 0.5; B64.lit 1.0; B64.lit 1.5; B64.lit 2.0]
    = Some (B64.lit 1.0).
Proof. vm_compute. repeat split; reflexivity. Qed.

(** ** The claims as stated, at inputs where the code departs from them *)

(** C1 as stated fails: at 120 bpm a first beat of -1e-20 gives an offset
    equal to the period, not below it; a tempo of 1e308 becomes a bpm of
    [+inf], which is above zero, and the block raises; a first beat that
    is NaN gives an offset that is NaN. *)
Lemma grid_offset_outside_period :
  (B64.div (B64.lit 60.0) (B64.lit 120.0) = Ok (B64.lit 0.5) /\
   V1_b64.grid_offset (Some (B64.lit 120.0)) [B64.lit (-1e-20)] = Ok (B64.lit 0.5) /\
   V2_b64.grid_offset (Some (B64.lit 120.0)) [B64.lit (-1e-20)] = Ok (B64.lit 0.5) /\
   B64.ltb (B64.lit 0.5) (B64.lit 0.5) = false) /\
  (V1_b64.bpm_of_tempo (Some (B64.lit 1e308)) = Some (B64.Inf false) /\
   B64.ltb B64.zero (B64.Inf false) = true /\
   V1_b64.grid_offset (Some (B64.Inf false)) [B64.lit 0.5]
     = Raise (ZeroDivisionError "float modulo") /\
   V2_b64.grid_offset (Some (B64.Inf false)) [B64.lit 0.5]
     = Raise (ZeroDivisionError "float modulo")) /\
  (V1_b64.grid_offset (Some (B64.lit 120.0)) [B64.NaN] = Ok B64.NaN /\
   V2_b64.grid_offset (Some (B64.lit 120.0)) [B64.NaN] = Ok B64.NaN /\
   B64.leb B64.zero B64.NaN = false).
Proof. vm_compute. repeat split; reflexivity. Qed.

(** C2 as stated fails: a tempo of 1e308 becomes a bpm of [+inf], which
    is above zero; the beat period is then 0.0, [%] raises, and no offset
    is produced. *)
Lemma grid_offset_none_at_infinite_tempo :
  V2_b64.bpm_of_tempo (Some (B64.lit 1e308)) = Some (B64.Inf false) /\
  B64.ltb B64.zero (B64.Inf false) = true /\
  B64.div (B64.lit 60.0) (B64.Inf false) = Ok B64.zero /\
  B64.mod_ (B64.lit 0.5) B64.zero = Raise (ZeroDivisionError "float modulo") /\
  V1_b64.grid_offset (Some (B64.Inf false)) [B64.lit 0.5; B64.lit 1.0]
    = Raise (ZeroDivisionError "float modulo") /\
  V2_b64.grid_offset (Some (B64.Inf false)) [B64.lit 0.5; B64.lit 1.0]
    = Raise (ZeroDivisionError "float modulo").
Proof. vm_compute. repeat split; reflexivity. Qed.

(** C3 as stated fails: for the finite beat times -1.7e308, 0.0 and
    1.7e308 both intervals are above zero, their sum overflows, and the
    confidence is NaN, which is neither null nor within [0, 1]; so it is
    with a beat time of [+inf]. *)
Lemma confidence_not_a_number :
  (V1_b64.stability [B64.lit (-1.7e308); B64.lit 0.0; B64.lit 1.7e308] = Some B64.NaN /\
   V2_b64.confidence_of [B64.lit (-1.7e308); B64.lit 0.0; B64.lit 1.7e308] = Some B64.NaN) /\
  (V1_b64.stability [B64.lit 0.0; B64.lit 1.0; B64.Inf false] = Some B64.NaN /\
   V2_b64.confidence_of [B64.lit 0.0; B64.lit 1.0; B64.Inf false] = Some B64.NaN) /\
  B64.leb B64.zero B64.NaN = false /\ B64.leb B64.NaN B64.one = false.
Proof. vm_compute. repeat split; reflexivity. Qed.

(** * The theorems at concrete inputs *)

Lemma grid_offset_within_period_b64_witness :
  (exists period off,
     B64.div (B64.lit 60.0) (B64.Fin 128) = Ok period /\
     V1_b64.grid_offset (Some (B64.Fin 128)) [B64.Fin 0.515; B64.Fin 0.983] = Ok off /\
     V2_b64.grid_offset (Some (B64.Fin 128)) [B64.Fin 0.515; B64.Fin 0.983] = Ok off /\
     B64.leb B64.zero off = true /\ B64.ltb off period = true)
  /\
  (V1_b64.grid_offset (Some (B64.Fin (-3))) [B64.Fin 0.515] = Ok B64.zero /\
   V2_b64.grid_offset (Some (B64.Fin (-3))) [B64.Fin 0.515] = Ok B64.zero).
Proof.
  split.
  - apply (proj1 grid_offset_within_period_b64 128 0.515 [B64.Fin 0.983]);
      [reflexivity | apply Qle_bool_iff; vm_compute; reflexivity | discriminate].
  - apply (proj2 grid_offset_within_period_b64 (Some (B64.Fin (-3))) [B64.Fin 0.515]).
    right. exists (B64.Fin (-3)). split; reflexivity.
Defined.

Lemma grid_offset_snap_b64_witness :
  0 < 128 /\ 128 <= B64.max_float /\
  exists beatPeriod raw off,
    beatPeriod = B64.round (60 / 128) /\
    B64.mod_ (B64.lit 0.015) beatPeriod = Ok raw /\
    (forall t y, B64.lit 0.015 = B64.Fin t -> beatPeriod = B64.Fin y ->
       raw = if Qle_bool 0 t then B64.Fin (Qred (Spec.Qmod t y))
             else B64.round (Spec.Qmod t y)) /\
    V1_b64.grid_offset (Some (B64.Fin 128)) [B64.lit 0.015; B64.lit 0.483] = Ok off /\
    V2_b64.grid_offset (Some (B64.Fin 128)) [B64.lit 0.015; B64.lit 0.483] = Ok off /\
    (B64.ltb (B64.abs raw) (B64.lit 0.02) = true -> off = B64.zero) /\
    (B64.ltb (B64.abs raw) (B64.lit 0.02) = false -> off = raw).
Proof.
  split; [reflexivity|].
  split; [apply Qle_bool_iff; vm_compute; reflexivity|].
  apply (grid_offset_snap_b64 128 (B64.lit 0.015) [B64.lit 0.483]);
    [reflexivity | apply Qle_bool_iff; vm_compute; reflexivity].
Defined.

Lemma confidence_null_nan_or_unit_witness :
  V1_b64.stability [B64.lit 0.5; B64.lit 1.0] = None /\
  V1_b64.stability [B64.lit 0.5; B64.lit 1.0; B64.lit 0.9; B64.lit 1.5] = None /\
  exists c,
    V1_b64.stability [B64.lit 0.1; B64.lit 0.2; B64.lit 0.3; B64.lit 0.4] = Some c /\
    B64.same c (Spec.confidence [B64.lit 0.1; B64.lit 0.2; B64.lit 0.3; B64.lit 0.4]).
Proof.
  split; [|split].
  - destruct (confidence_null_nan_or_unit [B64.lit 0.5; B64.lit 1.0])
      as (_ & _ & H & _).
    apply H. cbn [length]. lia.
  - destruct (confidence_null_nan_or_unit
                [B64.lit 0.5; B64.lit 1.0; B64.lit 0.9; B64.lit 1.5])
      as (_ & _ & _ & H & _).
    apply H. exists 1%nat, (B64.lit 1.0), (B64.lit 0.9).
    split; [reflexivity|]. split; [reflexivity|]. vm_compute. reflexivity.
  - destruct (confidence_null_nan_or_unit
                [B64.lit 0.1; B64.lit 0.2; B64.lit 0.3; B64.lit 0.4])
      as (_ & _ & _ & _ & H).
    apply H.
    + cbn [length]. lia.
    + intros [|[|[|[|i]]]] t u Ht Hu; vm_compute in Ht, Hu;
        try discriminate; injection Ht as <-; injection Hu as <-;
        vm_compute; reflexivity.
Defined.

Lemma downbeats_every_nth_witness :
  exists downbeats,
    V2._infer_downbeats_from_beats Examples.nine_beats 4 = Ok downbeats /\
    (forall k : nat, downbeats !! k = Examples.nine_beats !! (k * 4)%nat) /\
    downbeats `sublist_of` Examples.nine_beats.
Proof.
  destruct (downbeats_every_nth Examples.nine_beats 4) as (d & H1 & H2 & H3 & _).
  exists d. split; [exact H1|]. split; [|exact H3].
  apply H2. lia.
Defined.

Lemma decode_failure_reported_witness :
  is_wav "song.mp3" = false /\
  exists w',
    V1._decode_to_wav Examples.env_decode_fails "song.mp3" Examples.world0
    = (Raise (RuntimeError
                "ffmpeg failed to decode input: song.mp3: Invalid data found"), w') /\
    V2._decode_to_wav Examples.env_decode_fails "song.mp3" Examples.world0
    = (Raise (RuntimeError
                "ffmpeg decode failed: song.mp3: Invalid data found"), w') /\
    ("/tmp/tmpq1w2e3r4.wav"%string ∉ files w') /\
    files w' = files Examples.world0 ∖ {["/tmp/tmpq1w2e3r4.wav"%string]}.
Proof.
  split; [reflexivity|].
  apply (decode_failure_reported Examples.env_decode_fails "song.mp3"
           Examples.world0 1
           (list_byte_of_string "song.mp3: Invalid data found"));
    [reflexivity | reflexivity | discriminate].
Defined.

Lemma failure_gives_error_result_witness :
  (let out := V1.main Examples.sqrt6 Examples.env_engine_fails "take.WAV"
                Examples.world0 in
   fst out = Ok 1%Z /\
   stdout (snd out) = [] /\
   stderr (snd out) = [ {| error := "Error opening file" |} ]) /\
  (let out := V2.main Examples.sqrt6 Examples.env_engine_fails "take.WAV" "none"
                Examples.world0 in
   fst out = Ok 1%Z /\
   stdout (snd out) = [] /\
   stderr (snd out) = [ {| error := "Error opening file" |} ]).
Proof.
  split.
  - apply (proj1 (failure_gives_error_result Examples.sqrt6
                    Examples.env_engine_fails "take.WAV" "none" Examples.world0
                    Examples.world0 (AnalysisException "Error opening file"))).
    reflexivity.
  - apply (proj2 (failure_gives_error_result Examples.sqrt6
                    Examples.env_engine_fails "take.WAV" "none" Examples.world0
                    Examples.world0 (AnalysisException "Error opening file"))).
    reflexivity.
Defined.

Lemma wav_input_used_in_place_witness :
  Py.lower (snd (Py.splitext "take.WAV")) = ".wav"%string /\
  V1._decode_to_wav Examples.env_ok "take.WAV" Examples.world0
  = (Ok ("take.WAV"%string, false), Examples.world0) /\
  V2._decode_to_wav Examples.env_ok "take.WAV" Examples.world0
  = (Ok ("take.WAV"%string, false), Examples.world0) /\
  snd (V1.analyze Examples.sqrt6 Examples.env_ok "take.WAV" Examples.world0)
  = Examples.world0 /\
  snd (V2.analyze_v2 Examples.sqrt6 Examples.env_ok "take.WAV" "none"
         Examples.world0)
  = Examples.world0.
Proof.
  split; [reflexivity|].
  apply (wav_input_used_in_place Examples.sqrt6 Examples.env_ok "take.WAV" "none"
           Examples.world0).
  reflexivity.
Defined.

Lemma estimators_depend_on_inputs_only_witness :
  let a1 := V1.analyze Examples.sqrt6 Examples.env_ok "take.WAV" Examples.world0 in
  let a2 := V1.analyze Examples.sqrt6 Examples.env_other "mix.flac" Examples.world1 in
  let b1 := V2.analyze_v2 Examples.sqrt6 Examples.env_ok "take.WAV" "none"
              Examples.world0 in
  let b2 := V2.analyze_v2 Examples.sqrt6 Examples.env_other "mix.flac" "drums"
              Examples.world1 in
  (gridOffsetSec (Examples.grid_of a1) = gridOffsetSec (Examples.grid_of a2) /\
   confidence (Examples.grid_of a1) = confidence (Examples.grid_of a2)) /\
  (gridOffsetSec (Examples.grid_of b1) = gridOffsetSec (Examples.grid_of b2) /\
   confidence (Examples.grid_of b1) = confidence (Examples.grid_of b2) /\
   downbeatTimesSec (Examples.grid_of b1) = downbeatTimesSec (Examples.grid_of b2)).
Proof.
  intros a1 a2 b1 b2. split.
  - apply (proj1 (estimators_depend_on_inputs_only Examples.sqrt6
                    Examples.env_ok Examples.env_other "take.WAV" "mix.flac"
                    "none" "drums" Examples.world0 Examples.world1
                    (snd a1) (snd a2) (Examples.grid_of a1) (Examples.grid_of a2)
                    eq_refl eq_refl eq_refl));
      vm_compute; reflexivity.
  - apply (proj2 (estimators_depend_on_inputs_only Examples.sqrt6
                    Examples.env_ok Examples.env_other "take.WAV" "mix.flac"
                    "none" "drums" Examples.world0 Examples.world1
                    (snd b1) (snd b2) (Examples.grid_of b1) (Examples.grid_of b2)
                    eq_refl eq_refl eq_refl));
      vm_compute; reflexivity.
Defined.

Lemma zero_tempo_is_reported_witness :
  let g1 := Examples.grid_of
              (V1.analyze Examples.sqrt6 Examples.env_zero_tempo "take.WAV"
                 Examples.world0) in
  let g2 := Examples.grid_of
              (V2.analyze_v2 Examples.sqrt6 Examples.env_zero_tempo "take.WAV"
                 "none" Examples.world0) in
  ((exists b, bpm g1 = Some b /\ b == 0) /\ gridOffsetSec g1 = 0.0) /\
  ((exists b, bpm g2 = Some b /\ b == 0) /\ gridOffsetSec g2 = 0.0).
Proof.
  intros g1 g2. split.
  - destruct (proj1 (zero_tempo_is_reported Examples.sqrt6
                       Examples.env_zero_tempo "take.WAV" "none"
                       Examples.world0 Examples.world0 g1) eq_refl)
      as (wav & tempo & Heng & _ & Hzero).
    apply (Hzero 0.0); [|reflexivity].
    cbn in Heng. injection Heng as <-. reflexivity.
  - destruct (proj2 (zero_tempo_is_reported Examples.sqrt6
                       Examples.env_zero_tempo "take.WAV" "none"
                       Examples.world0 Examples.world0 g2) eq_refl)
      as (wav & tempo & Heng & _ & Hzero).
    apply (Hzero 0.0); [|reflexivity].
    cbn in Heng. injection Heng as <-. reflexivity.
Defined.

(** * Further properties of the code *)

(** ** Grid offset (variant 1 lines 91-99, variant 2 lines 95-99) *)

(** Without a beat the offset stays at [0.0], whatever the tempo. *)
Lemma grid_offset_no_beat (bpm : option Q) :
  V1.grid_offset bpm [] = Ok 0.0 /\ V2.grid_offset bpm [] = Ok 0.0.
Proof.
  destruct bpm as [b|]; [|split; reflexivity].
  unfold V1.grid_offset, V2.grid_offset. cbn [Py.list_truthy].
  rewrite andb_false_r. split; reflexivity.
Qed.

(** In every case the two variants compute the same offset, without an
    exception. *)
Lemma grid_offset_defined (bpm : option Q) (beat_times : list Q) :
  exists off,
    V1.grid_offset bpm beat_times = Ok off /\
    V2.grid_offset bpm beat_times = Ok off.
Proof.
  destruct bpm as [b|].
  - destruct (Qlt_le_dec 0 b) as [Hb|Hb].
    + destruct beat_times as [|t rest].
      * exists 0.0. apply grid_offset_no_beat.
      * destruct (grid_offset_branch b t rest Hb) as (m & _ & _ & H1 & H2).
        eauto.
    + exists 0.0. apply grid_offset_default. right. eauto.
  - exists 0.0. apply grid_offset_default. left. reflexivity.
Qed.

(** Without a beat the offset stays at its initial 0.0, whatever the
    tempo. *)
Lemma grid_offset_b64_no_beat (bpm : option B64.float) :
  V1_b64.grid_offset bpm [] = Ok B64.zero /\
  V2_b64.grid_offset bpm [] = Ok B64.zero.
Proof.
  unfold V1_b64.grid_offset, V2_b64.grid_offset.
  destruct bpm as [x|]; [|split; reflexivity].
  cbn [Py.list_truthy]. rewrite andb_false_r. split; reflexivity.
Qed.

(** X1: the grid-offset block raises for exactly one tempo.  For a bpm of
    [+inf] and at least one beat both variants raise ZeroDivisionError
    (the beat period 60.0 / inf is 0.0); for every other bpm (null, NaN,
    [-inf] or finite) and every beat list, both variants return the same
    offset, and that offset is 0.0 or not below 0.02 in magnitude: an
    offset strictly between 0 and 20 ms is never reported. *)
Theorem grid_offset_raises_only_at_inf
    (bpm : option B64.float) (beat_times : list B64.float) :
  (forall b, bpm = Some (B64.Fin b) -> b <= B64.max_float) ->
  (bpm = Some (B64.Inf false) -> beat_times <> [] ->
   V1_b64.grid_offset bpm beat_times = Raise (ZeroDivisionError "float modulo") /\
   V2_b64.grid_offset bpm beat_times = Raise (ZeroDivisionError "float modulo"))
  /\
  (bpm <> Some (B64.Inf false) \/ beat_times = [] ->
   exists off,
     V1_b64.grid_offset bpm beat_times = Ok off /\
     V2_b64.grid_offset bpm beat_times = Ok off /\
     (off = B64.zero \/ B64.ltb (B64.abs off) (B64.lit 0.02) = false)).
Proof.
  intros Hrange. split.
  - intros -> Hne. destruct beat_times as [|x rest]; [congruence|].
    apply grid_offset_b64_inf.
  - intros Hcase.
    destruct beat_times as [|x rest].
    { destruct (grid_offset_b64_no_beat bpm) as [H1 H2].
      exists B64.zero. split; [exact H1|]. split; [exact H2|]. left. reflexivity. }
    destruct Hcase as [Hbpm | Hnil]; [|discriminate].
    destruct (match bpm with Some y => B64.ltb B64.zero y | None => false end) eqn:Epos.
    + destruct bpm as [[b | [|] | ]|]; try discriminate Epos; [|congruence].
      cbn [B64.ltb B64.zero] in Epos. apply ltb_lt in Epos.
      destruct (grid_offset_b64_branch b x rest Epos (Hrange b eq_refl))
        as (p & raw & _ & _ & _ & H1 & H2).
      eexists. split; [exact H1|]. split; [exact H2|].
      destruct (B64.ltb (B64.abs raw) (B64.lit 0.02)) eqn:E; [left; reflexivity|].
      right. exact E.
    + assert (Hdef : bpm = None \/ exists y, bpm = Some y /\ B64.ltb B64.zero y = false).
      { destruct bpm as [y|]; [right; exists y; split; [reflexivity | exact Epos] | left; reflexivity]. }
      destruct (grid_offset_b64_default bpm (x :: rest) Hdef) as [H1 H2].
      exists B64.zero. split; [exact H1|]. split; [exact H2|]. left. reflexivity.
Qed.

Lemma grid_offset_raises_only_at_inf_witness :
  (forall b, Some (B64.lit 128.0) = Some (B64.Fin b) -> b <= B64.max_float) /\
  exists off,
    V1_b64.grid_offset (Some (B64.lit 128.0)) [B64.lit 0.515; B64.lit 0.983] = Ok off /\
    V2_b64.grid_offset (Some (B64.lit 128.0)) [B64.lit 0.515; B64.lit 0.983] = Ok off /\
    (off = B64.zero \/ B64.ltb (B64.abs off) (B64.lit 0.02) = false).
Proof.
  assert (H : forall b, Some (B64.lit 128.0) = Some (B64.Fin b) -> b <= B64.max_float).
  { intros b Hb. vm_compute in Hb. injection Hb as <-.
    apply Qle_bool_iff. vm_compute. reflexivity. }
  split; [exact H|].
  apply (proj2 (grid_offset_raises_only_at_inf (Some (B64.lit 128.0))
                  [B64.lit 0.515; B64.lit 0.983] H)).
  left. vm_compute. discriminate.
Defined.

Lemma lit_002 :
  B64.lit 0.02 = B64.Fin (5764607523034235 # 288230376151711744).
Proof. vm_compute. reflexivity. Qed.

(** X2: for a finite tempo above zero and a first beat that is finite and
    not negative, the grid whose period is the float 60.0 / bpm and whose
    anchor is the reported offset passes within 20 ms (the float 0.02) of
    the first beat, and exactly through it when the offset is not zero:
    first beat =
    offset + n * period for an integer n, as an equation between the
    numbers the floats denote. *)
Theorem grid_offset_aligns_b64 (b t : Q) (rest : list B64.float) :
  0 < b -> b <= B64.max_float -> 0 <= t ->
  exists period off,
    B64.div (B64.lit 60.0) (B64.Fin b) = Ok period /\
    V1_b64.grid_offset (Some (B64.Fin b)) (B64.Fin t :: rest) = Ok off /\
    V2_b64.grid_offset (Some (B64.Fin b)) (B64.Fin t :: rest) = Ok off /\
    forall y, period = B64.Fin y ->
      exists (o c : Q) (n : Z),
        off = B64.Fin o /\ B64.lit 0.02 = B64.Fin c /\
        Qabs (t - (o + inject_Z n * y)) < c /\
        (~ o == 0 -> t == o + inject_Z n * y).
Proof.
  intros Hb Hmax Ht.
  destruct (grid_offset_b64_branch b (B64.Fin t) rest Hb Hmax)
    as (p & raw & Hdiv & Hp & Hraw & H1 & H2).
  exists p. eexists. split; [exact Hdiv|]. split; [exact H1|]. split; [exact H2|].
  intros y ->.
  assert (Hy : 0 < y).
  { destruct Hp as [(y' & Heq & Hy') | Heq]; [|discriminate].
    injection Heq as ->. exact Hy'. }
  rewrite (mod_finite t y Hy) in Hraw.
  assert (Et : Qle_bool 0 t = true) by (apply Qle_bool_iff; exact Ht).
  rewrite Et in Hraw. injection Hraw as <-.
  destruct (Qmod_range t y Hy) as [Hlo Hhi].
  pose proof (Qred_correct (Spec.Qmod t y)) as Hred.
  set (r := Qred (Spec.Qmod t y)) in *.
  assert (Hr : t == r + inject_Z (Qfloor (t / y)) * y).
  { rewrite Hred. unfold Spec.Qmod. ring. }
  rewrite lit_002. cbn [B64.abs B64.ltb].
  destruct (PyFloat.ltb (Qabs r) (5764607523034235 # 288230376151711744)) eqn:E.
  - exists 0, (5764607523034235 # 288230376151711744), (Qfloor (t / y)).
    split; [reflexivity|]. split; [reflexivity|]. split.
    + apply ltb_lt in E.
      assert (Heq : t - (0 + inject_Z (Qfloor (t / y)) * y) == r) by (rewrite Hr at 1; ring).
      rewrite Heq. exact E.
    + intros Hn. exfalso. apply Hn. reflexivity.
  - exists r, (5764607523034235 # 288230376151711744), (Qfloor (t / y)).
    split; [reflexivity|]. split; [reflexivity|].
    assert (Heq : t - (r + inject_Z (Qfloor (t / y)) * y) == 0) by (rewrite Hr at 1; ring).
    split; [rewrite Heq; reflexivity | intros _; exact Hr].
Qed.

Lemma grid_offset_aligns_b64_witness :
  exists period off,
    B64.div (B64.lit 60.0) (B64.Fin 75) = Ok period /\
    V1_b64.grid_offset (Some (B64.Fin 75)) [B64.Fin 4] = Ok off /\
    V2_b64.grid_offset (Some (B64.Fin 75)) [B64.Fin 4] = Ok off /\
    forall y, period = B64.Fin y ->
      exists (o c : Q) (n : Z),
        off = B64.Fin o /\ B64.lit 0.02 = B64.Fin c /\
        Qabs (4 - (o + inject_Z n * y)) < c /\
        (~ o == 0 -> 4 == o + inject_Z n * y).
Proof.
  apply (grid_offset_aligns_b64 75 4 []);
    [reflexivity | apply Qle_bool_iff; vm_compute; reflexivity | discriminate].
Defined.

(** ** The beat period (variant 1 line 93, variant 2 line 97) *)

(** [floor_log2] does not fall short either. *)
Lemma floor_log2_lt (a : Q) : 0 < a -> a < B64.pow2 (B64.floor_log2 a + 1).
Proof.
  intros Ha. unfold B64.floor_log2.
  set (d := (Z.log2 (Qnum a) - Z.log2 (Z.pos (Qden a)))%Z).
  destruct (Qle_bool (B64.pow2 d) a) eqn:E.
  - destruct a as [n m]. cbn [Qnum Qden] in d.
    assert (Hn : (0 < n)%Z).
    { unfold Qlt in Ha. cbn in Ha. lia. }
    destruct (Z.log2_spec n Hn) as [_ Hhi].
    destruct (Z.log2_spec (Z.pos m) ltac:(lia)) as [Hlo _].
    pose proof (Z.log2_nonneg n) as Hln.
    pose proof (Z.log2_nonneg (Z.pos m)) as Hlm.
    set (ln := Z.log2 n) in *. set (lm := Z.log2 (Z.pos m)) in *.
    assert (Hmul : B64.pow2 (d + 1) * B64.pow2 lm == B64.pow2 (ln + 1)).
    { rewrite <- pow2_add. replace (d + 1 + lm)%Z with (ln + 1)%Z by (subst d; lia).
      reflexivity. }
    assert (Hm : B64.pow2 lm <= inject_Z (Z.pos m)).
    { rewrite pow2_inject by lia. rewrite <- Zle_Qle. exact Hlo. }
    assert (Hn' : inject_Z n < B64.pow2 (ln + 1)).
    { rewrite pow2_inject by lia. rewrite <- Zlt_Qlt. unfold Z.succ in Hhi. exact Hhi. }
    pose proof (pow2_pos (d + 1)) as Hp.
    assert (Hq : n # m == inject_Z n / inject_Z (Z.pos m)).
    { rewrite Qmake_Qdiv. reflexivity. }
    rewrite Hq. apply Qlt_shift_div_r.
    + change 0 with (inject_Z 0). rewrite <- Zlt_Qlt. lia.
    + eapply Qlt_le_trans; [exact Hn'|]. rewrite <- Hmul.
      apply Qmult_le_l; [exact Hp | exact Hm].
  - replace (d - 1 + 1)%Z with d by lia.
    apply Qnot_le_lt. intros H. apply Qle_bool_iff in H. congruence.
Qed.

(** Rounding a number in the normal range moves it by at most one part in
    [2^53]. *)
Lemma round_error (q v : Q) :
  B64.pow2 (-1022) <= q -> B64.round q = B64.Fin v ->
  Qabs (v - q) <= q * B64.pow2 (-53).
Proof.
  intros Hq Hv.
  pose proof (pow2_pos (-1022)) as Hmin.
  assert (Hq0 : 0 < q) by lra.
  unfold B64.round in Hv.
  pose proof (Qred_correct q) as Hr.
  set (r := Qred q) in *.
  assert (Hr0 : 0 < r) by (rewrite Hr; exact Hq0).
  assert (E0 : Qeq_bool r 0 = false) by (apply eqb_neq; lra).
  rewrite E0 in Hv.
  assert (Hneg : PyFloat.ltb r 0 = false) by (apply ltb_ge; lra).
  rewrite Hneg in Hv.
  assert (Habs : Qabs r == q) by (rewrite Qabs_pos by lra; exact Hr).
  pose proof (floor_log2_le (Qabs r) ltac:(rewrite Habs; exact Hq0)) as Hlo.
  pose proof (floor_log2_lt (Qabs r) ltac:(rewrite Habs; exact Hq0)) as Hhi.
  set (k := B64.floor_log2 (Qabs r)) in *.
  assert (Hk : (-1022 <= k)%Z).
  { destruct (Z.le_gt_cases (-1022) k) as [H|H]; [exact H|]. exfalso.
    pose proof (pow2_le (k + 1) (-1022) ltac:(lia)) as Hle.
    rewrite Habs in Hhi. lra. }
  rewrite Z.max_l in Hv by lia.
  set (e := (k - 52)%Z) in *.
  pose proof (pow2_pos e) as Hpe.
  destruct (rint_half (Qabs r / B64.pow2 e)) as [H1 H2].
  set (n := PyFloat.rint (Qabs r / B64.pow2 e)) in *.
  destruct (Qle_bool (B64.pow2 1024) (Qred (inject_Z n * B64.pow2 e))); [discriminate|].
  injection Hv as <-. rewrite Qred_correct.
  assert (Hx : Qabs r / B64.pow2 e * B64.pow2 e == Qabs r).
  { field. lra. }
  assert (Hek : B64.pow2 e == B64.pow2 k * B64.pow2 (-52)).
  { subst e. rewrite <- pow2_add. reflexivity. }
  assert (H53 : B64.pow2 (-53) * 2 == B64.pow2 (-52)) by reflexivity.
  pose proof (pow2_pos (-53)) as Hp53. pose proof (pow2_pos k) as Hpk.
  rewrite Habs in *.
  set (x := q / B64.pow2 e) in *. set (pe := B64.pow2 e) in *.
  set (pk := B64.pow2 k) in *. set (p53 := B64.pow2 (-53)) in *.
  set (p52 := B64.pow2 (-52)) in *.
  assert (Hd : Qabs (inject_Z n * pe - q) <= pe * (1 # 2)).
  { apply Qabs_Qle_condition. split; nra. }
  eapply Qle_trans; [exact Hd|]. nra.
Qed.

(** X20: the beat period of a finite tempo above zero is the exact
    quotient 60 / bpm up to rounding: when it is finite, it differs from
    the quotient by at most one part in [2^53]. *)
Theorem beat_period_accurate (b : Q) :
  0 < b -> b <= B64.max_float ->
  exists period,
    B64.div (B64.lit 60.0) (B64.Fin b) = Ok period /\
    forall y, period = B64.Fin y ->
      0 < y /\ Qabs (y - 60 / b) <= 60 / b * B64.pow2 (-53).
Proof.
  intros Hb Hmax.
  destruct (beat_period_pos b Hb Hmax) as (p & Hdiv & Hp).
  exists p. split; [exact Hdiv|]. intros y ->.
  split.
  { destruct Hp as [(y' & Heq & Hy') | Heq]; [|discriminate].
    injection Heq as ->. exact Hy'. }
  rewrite lit_60 in Hdiv. unfold B64.div in Hdiv.
  assert (Hb0 : Qeq_bool b 0 = false) by (apply eqb_neq; lra).
  cbn [B64.eqb B64.zero B64.fdiv] in Hdiv. rewrite Hb0 in Hdiv.
  injection Hdiv as Hdiv.
  apply round_error; [|exact Hdiv].
  apply Qle_shift_div_l; [exact Hb|].
  pose proof (pow2_pos (-1022)) as Hpp.
  assert (Hc : B64.pow2 (-1022) * B64.max_float <= 60).
  { apply Qle_bool_iff. vm_compute. reflexivity. }
  eapply Qle_trans; [|exact Hc].
  apply Qmult_le_l; [exact Hpp | exact Hmax].
Qed.

Lemma beat_period_accurate_witness :
  exists period,
    B64.div (B64.lit 60.0) (B64.Fin 75) = Ok period /\
    forall y, period = B64.Fin y ->
      0 < y /\ Qabs (y - 60 / 75) <= 60 / 75 * B64.pow2 (-53).
Proof.
  apply (beat_period_accurate 75);
    [reflexivity | apply Qle_bool_iff; vm_compute; reflexivity].
Defined.

(** ** Tempo rounding (line 88 of both variants) *)

(** [rint] is within one half of its argument, and leaves integers. *)
Lemma rint_near (x : Q) :
  - (1 # 2) <= inject_Z (PyFloat.rint x) - x /\
  inject_Z (PyFloat.rint x) - x <= 1 # 2.
Proof.
  unfold PyFloat.rint.
  pose proof (Qfloor_le x) as Hf. pose proof (Qlt_floor x) as Hl.
  rewrite inject_Z_plus in Hl. change (inject_Z 1) with 1 in Hl.
  destruct (PyFloat.ltb (x - inject_Z (Qfloor x)) (1 # 2)) eqn:E1.
  { apply ltb_lt in E1. split; lra. }
  apply ltb_ge in E1.
  destruct (PyFloat.ltb (1 # 2) (x - inject_Z (Qfloor x))) eqn:E2.
  { rewrite inject_Z_plus. change (inject_Z 1) with 1. split; lra. }
  apply ltb_ge in E2.
  destruct (Z.even (Qfloor x)).
  - split; lra.
  - rewrite inject_Z_plus. change (inject_Z 1) with 1. split; lra.
Qed.


Lemma np_round_1 (t : Q) :
  PyFloat.np_round t 1 = inject_Z (PyFloat.rint (t * inject_Z 10)) / inject_Z 10.
Proof. reflexivity. Qed.


(** X6: a tempo of magnitude at most 0.05 is reported as bpm zero (0.05
    itself is a tie, rounded to the even tenth), and the grid offset is
    then 0.0 whatever the beats - also for a tempo that is positive. *)
Theorem tiny_tempo_reported_as_zero (t : Q) (beat_times : list Q) :
  Qabs t <= 1 # 20 ->
  exists b,
    V1.bpm_of_tempo (Some t) = Some b /\
    V2.bpm_of_tempo (Some t) = Some b /\
    b == 0 /\
    V1.grid_offset (Some b) beat_times = Ok 0.0 /\
    V2.grid_offset (Some b) beat_times = Ok 0.0.
Proof.
  intros Ht. apply Qabs_Qle_condition in Ht as [Hlo Hhi].
  exists (PyFloat.np_round t 1).
  split; [reflexivity|]. split; [reflexivity|].
  assert (Hr : PyFloat.rint (t * inject_Z 10) = 0%Z).
  { destruct (rint_near (t * inject_Z 10)) as [Rlo Rhi].
    change (inject_Z 10) with 10 in *.
    set (n := PyFloat.rint (t * 10)) in *.
    assert (Hn1 : (n < 2)%Z) by (rewrite Zlt_Qlt; change (inject_Z 2) with 2; lra).
    assert (Hn2 : (-2 < n)%Z)
      by (rewrite Zlt_Qlt; change (inject_Z (-2)) with (-2 # 1); lra).
    assert (Hcases : (n = -1 \/ n = 0 \/ n = 1)%Z) by lia.
    destruct Hcases as [Hn | [Hn | Hn]]; [| exact Hn |]; exfalso.
    - (* n = -1 forces t * 10 = -1/2, a tie between -1 and 0: even is 0 *)
      rewrite Hn in Rlo, Rhi. change (inject_Z (-1)) with (-1 # 1) in Rlo, Rhi.
      assert (Hx : t * 10 == - (1 # 2)) by lra.
      subst n. unfold PyFloat.rint in Hn.
      assert (Hf : Qfloor (t * 10) = (-1)%Z).
      { apply Qfloor_unique.
        - change (inject_Z (-1)) with (-1 # 1). lra.
        - change (inject_Z (-1 + 1)) with 0. lra. }
      rewrite Hf in Hn. change (inject_Z (-1)) with (-1 # 1) in Hn.
      replace (PyFloat.ltb (t * 10 - (-1 # 1)) (1 # 2)) with false in Hn
        by (symmetry; apply ltb_ge; lra).
      replace (PyFloat.ltb (1 # 2) (t * 10 - (-1 # 1))) with false in Hn
        by (symmetry; apply ltb_ge; lra).
      cbn in Hn. discriminate.
    - (* n = 1 forces t * 10 = 1/2, a tie between 0 and 1: even is 0 *)
      rewrite Hn in Rlo, Rhi. change (inject_Z 1) with 1 in Rlo, Rhi.
      assert (Hx : t * 10 == 1 # 2) by lra.
      subst n. unfold PyFloat.rint in Hn.
      assert (Hf : Qfloor (t * 10) = 0%Z).
      { apply Qfloor_unique.
        - change (inject_Z 0) with 0. lra.
        - change (inject_Z (0 + 1)) with 1. lra. }
      rewrite Hf in Hn. change (inject_Z 0) with 0 in Hn.
      replace (PyFloat.ltb (t * 10 - 0) (1 # 2)) with false in Hn
        by (symmetry; apply ltb_ge; lra).
      replace (PyFloat.ltb (1 # 2) (t * 10 - 0)) with false in Hn
        by (symmetry; apply ltb_ge; lra).
      cbn in Hn. discriminate. }
  assert (Hb : PyFloat.np_round t 1 == 0).
  { rewrite np_round_1, Hr. reflexivity. }
  split; [exact Hb|].
  apply grid_offset_default. right. eexists. split; [reflexivity | lra].
Qed.

Lemma tiny_tempo_reported_as_zero_witness :
  Qabs 0.04 <= 1 # 20 /\
  exists b,
    V1.bpm_of_tempo (Some 0.04) = Some b /\
    V2.bpm_of_tempo (Some 0.04) = Some b /\
    b == 0 /\
    V1.grid_offset (Some b) [0.3; 0.8] = Ok 0.0 /\
    V2.grid_offset (Some b) [0.3; 0.8] = Ok 0.0.
Proof.
  split; [discriminate|].
  apply (tiny_tempo_reported_as_zero 0.04 [0.3; 0.8]). discriminate.
Defined.

(** ** Downbeats (variant 2, lines 57-62 and 90-92) *)

(** For a bar of at least one beat the inferrer returns a subsequence of
    the beats whose [k]-th element is the beat at index [k * N]. *)
Lemma infer_downbeats_lookup (beat_times : list Q) (N : Z) :
  (1 <= N)%Z ->
  exists r,
    V2._infer_downbeats_from_beats beat_times N = Ok r /\
    r `sublist_of` beat_times /\
    (forall k : nat, r !! k = beat_times !! (k * Z.to_nat N)%nat).
Proof.
  intros HN. unfold V2._infer_downbeats_from_beats.
  destruct beat_times as [|t rest].
  { exists []. cbn. split; [reflexivity|]. split; [apply sublist_nil_l|].
    intros k. reflexivity. }
  cbn [Py.list_truthy negb orb].
  replace (N <? 1)%Z with false by (symmetry; apply Z.ltb_ge; lia).
  unfold Py.range.
  replace (N =? 0)%Z with false by (symmetry; apply Z.eqb_neq; lia).
  replace (N <? 0)%Z with false by (symmetry; apply Z.ltb_ge; lia).
  cbn [rbind]. rewrite Z.sub_0_r, Nat2Z.id.
  destruct (comprehension_range_up (t :: rest) N HN (length (t :: rest)) 0%Z
              ltac:(lia)) as (r & Hr & Hsub & Hlen & Hk).
  exists r. split; [exact Hr|]. split; [exact Hsub|].
  intros k. destruct (decide (k < length (t :: rest))%nat) as [Hlt|Hge].
  - rewrite (Hk k Hlt). reflexivity.
  - rewrite (lookup_ge_None_2 r k) by lia.
    symmetry. apply lookup_ge_None. nia.
Qed.

(** X8: with N >= 1 beats per bar, n beats give ceil(n / N) downbeats. *)
Theorem downbeats_count (beat_times : list Q) (N : Z) :
  (1 <= N)%Z ->
  exists r,
    V2._infer_downbeats_from_beats beat_times N = Ok r /\
    Z.of_nat (length r) = ((Z.of_nat (length beat_times) + N - 1) / N)%Z.
Proof.
  intros HN.
  destruct (infer_downbeats_lookup beat_times N HN) as (r & Hr & _ & Hk).
  exists r. split; [exact Hr|].
  set (n := Z.to_nat N) in *.
  assert (Hn : (1 <= n)%nat) by lia.
  assert (Hin : forall k, (k < length r)%nat <-> (k * n < length beat_times)%nat).
  { intros k. rewrite <- !lookup_lt_is_Some, Hk. reflexivity. }
  assert (Hup : (length beat_times <= length r * n)%nat).
  { destruct (le_lt_dec (length beat_times) (length r * n)) as [H|H]; [exact H|].
    apply Hin in H. lia. }
  assert (Hlow : (length r = 0 \/ (length r - 1) * n < length beat_times)%nat).
  { destruct (length r) as [|m] eqn:E; [left; reflexivity|right].
    apply Hin. lia. }
  apply Z.div_unique with (r := (Z.of_nat (length beat_times) + N - 1
                                 - N * Z.of_nat (length r))%Z);
    [|lia].
  left. replace N with (Z.of_nat n) by lia. destruct Hlow as [H0|H1]; nia.
Qed.

Lemma downbeats_count_witness :
  exists r,
    V2._infer_downbeats_from_beats Examples.nine_beats 4 = Ok r /\
    Z.of_nat (length r) = ((Z.of_nat (length Examples.nine_beats) + 4 - 1) / 4)%Z.
Proof. apply (downbeats_count Examples.nine_beats 4). lia. Defined.

(** X9: with one beat per bar every beat is a downbeat: the inferrer
    returns the beats as they are. *)
Theorem downbeats_one_per_bar (beat_times : list Q) :
  V2._infer_downbeats_from_beats beat_times 1 = Ok beat_times.
Proof.
  destruct (infer_downbeats_lookup beat_times 1 ltac:(lia)) as (r & Hr & _ & Hk).
  rewrite Hr. f_equal. apply list_eq. intros k. rewrite Hk. f_equal.
  change (Z.to_nat 1) with 1%nat. lia.
Qed.

(** X10: when a bar is at least as long as the whole beat list, the first
    beat is the only downbeat. *)
Theorem downbeats_single_bar (t : Q) (rest : list Q) (N : Z) :
  (Z.of_nat (length (t :: rest)) <= N)%Z ->
  V2._infer_downbeats_from_beats (t :: rest) N = Ok [t].
Proof.
  intros HN.
  destruct (infer_downbeats_lookup (t :: rest) N ltac:(cbn [length] in HN; lia))
    as (r & Hr & _ & Hk).
  rewrite Hr. f_equal. apply list_eq. intros [|k].
  - rewrite Hk. reflexivity.
  - rewrite Hk. cbn [lookup list_lookup].
    transitivity (@None Q); [|reflexivity].
    apply lookup_ge_None. cbn [length] in *. nia.
Qed.

Lemma downbeats_single_bar_witness :
  (Z.of_nat (length [0.5%Q; 1.0%Q]) <= 4)%Z /\
  V2._infer_downbeats_from_beats [0.5; 1.0] 4 = Ok [0.5].
Proof.
  split; [cbn; lia|]. apply (downbeats_single_bar 0.5 [1.0] 4). cbn. lia.
Defined.

(** A subsequence of a strictly increasing list is strictly increasing. *)
Lemma StronglySorted_sublist {A : Type} (R : relation A) (l1 l2 : list A) :
  l1 `sublist_of` l2 -> StronglySorted R l2 -> StronglySorted R l1.
Proof.
  intros Hsub. induction Hsub as [|x l1 l2 Hsub IH|x l1 l2 Hsub IH]; intros Hs.
  - constructor.
  - apply StronglySorted_inv in Hs as [Hs Hx]. constructor; [auto|].
    apply Forall_forall. intros y Hy. rewrite Forall_forall in Hx.
    apply Hx. eapply elem_of_sublist; eauto.
  - apply StronglySorted_inv in Hs as [Hs _]. auto.
Qed.

(** X11: the downbeats of strictly increasing beat times are strictly
    increasing, for every number of beats per bar. *)
Theorem downbeats_increasing (beat_times : list Q) (N : Z) :
  StronglySorted Qlt beat_times ->
  exists r,
    V2._infer_downbeats_from_beats beat_times N = Ok r /\
    StronglySorted Qlt r.
Proof.
  intros Hs. destruct (Z_lt_le_dec N 1) as [HN|HN].
  - exists []. split; [|constructor].
    unfold V2._infer_downbeats_from_beats.
    replace (N <? 1)%Z with true by (symmetry; apply Z.ltb_lt; lia).
    rewrite orb_true_r. reflexivity.
  - destruct (infer_downbeats_lookup beat_times N HN) as (r & Hr & Hsub & _).
    exists r. split; [exact Hr|]. eapply StronglySorted_sublist; eauto.
Qed.

Lemma downbeats_increasing_witness :
  exists r,
    V2._infer_downbeats_from_beats [0.5; 1.0; 1.5] 2 = Ok r /\
    StronglySorted Qlt r.
Proof.
  apply (downbeats_increasing [0.5; 1.0; 1.5] 2).
  repeat constructor.
Defined.

(** ** Decoder invocations and files (lines 22-67 / 22-54, 70-124, 127-138) *)

(** [main] adds no decoder call to those of [analyze]. *)
Lemma main_calls (np_sqrt : Q -> Q) (env : Env)
    (path prefer_stem : string) (w : World) :
  decoder_calls (snd (V1.main np_sqrt env path w))
  = decoder_calls (snd (V1.analyze np_sqrt env path w)) /\
  decoder_calls (snd (V2.main np_sqrt env path prefer_stem w))
  = decoder_calls (snd (V2.analyze_v2 np_sqrt env path prefer_stem w)).
Proof.
  unfold V1.main, V2.main. run_py.
  destruct (V1.analyze np_sqrt env path w) as [[g1|e1] w1].
  all: destruct (V2.analyze_v2 np_sqrt env path prefer_stem w) as [[g2|e2] w2].
  all: split; reflexivity.
Qed.

(** The decoder calls after [analyze] on an input that is not a WAV file,
    for each way the decoder process can end. *)
Lemma analyze_calls_decoded (np_sqrt : Q -> Q) (env : Env)
    (path prefer_stem : string) (w : World) :
  is_wav path = false ->
  decoder_calls (snd (V1.analyze np_sqrt env path w))
  = decoder_calls w ++ [decoder_cmd env path w] /\
  decoder_calls (snd (V2.analyze_v2 np_sqrt env path prefer_stem w))
  = decoder_calls w ++ [decoder_cmd env path w].
Proof.
  intros Hwav.
  assert (Hin : tmp_path_of env w ∈ {[tmp_path_of env w]} ∪ files w).
  { apply elem_of_union. left. apply elem_of_singleton. reflexivity. }
  unfold V1.analyze, V2.analyze_v2. run_py.
  destruct (run_process env (decoder_cmd env path w)) as [rc err|msg] eqn:Hrun.
  - destruct (decide (rc = 0%Z)) as [-> | Hrc].
    + destruct (decode_done env path w err Hwav Hrun) as [H1 H2].
      rewrite H1, H2.
      split; pure_steps; cbn; (rewrite decide_True by exact Hin); reflexivity.
    + destruct (decode_nonzero env path w rc err Hwav Hrun Hrc) as [H1 H2].
      rewrite H1, H2. split; reflexivity.
  - destruct (decode_not_started env path w msg Hwav Hrun) as [H1 H2].
    rewrite H1, H2. split; reflexivity.
Qed.

(** X12: one run starts the decoder at most once: never for a WAV input,
    and exactly once otherwise - whatever the decoder and the engine then
    do - with the command line
    [bin -y -i input -ac 1 -ar 44100 -f wav tmp], where bin is the value of
    the environment variable FFMPEG, or ffmpeg when it is not set. *)
Theorem decoder_started_at_most_once (np_sqrt : Q -> Q) (env : Env)
    (path prefer_stem : string) (w : World) :
  let bin := match environ_FFMPEG env with Some v => v | None => "ffmpeg"%string end in
  let cmd := [bin; "-y"; "-i"; path; "-ac"; "1"; "-ar"; "44100"; "-f"; "wav";
              tmp_path_of env w]%string in
  let calls := if is_wav path then decoder_calls w else decoder_calls w ++ [cmd] in
  decoder_calls (snd (V1.main np_sqrt env path w)) = calls /\
  decoder_calls (snd (V2.main np_sqrt env path prefer_stem w)) = calls.
Proof.
  intros bin cmd calls. subst calls.
  destruct (main_calls np_sqrt env path prefer_stem w) as [M1 M2].
  rewrite M1, M2.
  destruct (is_wav path) eqn:Hwav.
  - destruct (analyze_wav_world np_sqrt env path prefer_stem w Hwav) as [A1 A2].
    rewrite A1, A2. split; reflexivity.
  - apply (analyze_calls_decoded np_sqrt env path prefer_stem w Hwav).
Qed.

(** X13: whenever the decoder process could be started (or was not needed),
    a run leaves the set of files as it found it, on success and on
    failure alike; the temporary name is assumed fresh, as [mkstemp]
    guarantees. *)
Theorem run_restores_files (np_sqrt : Q -> Q) (env : Env)
    (path prefer_stem : string) (w : World) :
  is_wav path = true \/
  (is_wav path = false /\
   (tmp_path_of env w ∉ files w) /\
   exists rc err, run_process env (decoder_cmd env path w) = Exited rc err) ->
  files (snd (V1.main np_sqrt env path w)) = files w /\
  files (snd (V2.main np_sqrt env path prefer_stem w)) = files w.
Proof.
  intros H.
  destruct (main_files np_sqrt env path prefer_stem w) as [M1 M2].
  rewrite M1, M2.
  destruct H as [Hwav | (Hwav & Hfresh & rc & err & Hrun)].
  - destruct (analyze_wav_world np_sqrt env path prefer_stem w Hwav) as [A1 A2].
    rewrite A1, A2. split; reflexivity.
  - destruct (temp_file_released np_sqrt env path prefer_stem w rc err Hwav Hrun)
      as [A1 A2].
    rewrite A1, A2.
    assert (Hset : files w ∖ {[tmp_path_of env w]} = files w).
    { apply set_eq. intros x. rewrite elem_of_difference, elem_of_singleton.
      split; [tauto|]. intros Hx. split; [exact Hx|]. intros ->. contradiction. }
    rewrite Hset. split; reflexivity.
Qed.

Lemma world0_tmp_fresh :
  tmp_path_of Examples.env_decode_fails Examples.world0 ∉ files Examples.world0.
Proof. apply (bool_decide_unpack _). vm_compute. exact I. Qed.

Lemma run_restores_files_witness :
  files (snd (V1.main Examples.sqrt6 Examples.env_decode_fails "song.mp3"
                Examples.world0))
  = files Examples.world0 /\
  files (snd (V2.main Examples.sqrt6 Examples.env_decode_fails "song.mp3" "none"
                Examples.world0))
  = files Examples.world0.
Proof.
  apply (run_restores_files Examples.sqrt6 Examples.env_decode_fails "song.mp3"
           "none" Examples.world0).
  right. split; [reflexivity|]. split; [exact world0_tmp_fresh|].
  exists 1%Z, (list_byte_of_string "song.mp3: Invalid data found"). reflexivity.
Defined.

(** ** The analysis after a normalizer that succeeded *)

(** When the input is a WAV file or the decoder exits with zero, both
    normalizers hand out the same handle: the input itself, not owned, or
    the temporary file, owned and on disk. *)
Lemma decode_handle (env : Env) (path : string) (w : World) :
  is_wav path = true \/
  (exists err, run_process env (decoder_cmd env path w) = Exited 0 err) ->
  let wav := if is_wav path then path else tmp_path_of env w in
  exists w1,
    V1._decode_to_wav env path w = (Ok (wav, negb (is_wav path)), w1) /\
    V2._decode_to_wav env path w = (Ok (wav, negb (is_wav path)), w1) /\
    (is_wav path = false -> wav ∈ files w1).
Proof.
  intros H wav. subst wav. destruct (is_wav path) eqn:Hwav.
  - destruct (decode_wav env path w Hwav) as [H1 H2].
    exists w. cbn. split; [exact H1|]. split; [exact H2|]. discriminate.
  - destruct H as [H | [err Hrun]]; [discriminate|].
    destruct (decode_done env path w err Hwav Hrun) as [H1 H2].
    eexists. cbn [negb]. split; [exact H1|]. split; [exact H2|].
    intros _. cbn. apply elem_of_union. left. apply elem_of_singleton. reflexivity.
Qed.

(** X14: an exception of the analysis engine leaves [analyze] and
    [analyze_v2] unchanged: the [finally] clause neither swallows it nor
    replaces it, whether the handle is owned or not. *)
Theorem engine_error_propagates (np_sqrt : Q -> Q) (env : Env)
    (path prefer_stem : string) (w : World) (e : exn) :
  is_wav path = true \/
  (exists err, run_process env (decoder_cmd env path w) = Exited 0 err) ->
  let wav := if is_wav path then path else tmp_path_of env w in
  (librosa_beats env wav = Raise e ->
   fst (V1.analyze np_sqrt env path w) = Raise e) /\
  (librosa_beats_v2 env wav = Raise e ->
   fst (V2.analyze_v2 np_sqrt env path prefer_stem w) = Raise e).
Proof.
  intros H wav.
  destruct (decode_handle env path w H) as (w1 & H1 & H2 & Hin).
  fold wav in H1, H2, Hin.
  split; intros Heng.
  - unfold V1.analyze. run_py. rewrite H1, Heng. cbn.
    destruct (is_wav path); cbn; [reflexivity|].
    rewrite decide_True by (apply Hin; reflexivity). reflexivity.
  - unfold V2.analyze_v2. run_py. rewrite H2, Heng. cbn.
    destruct (is_wav path); cbn; [reflexivity|].
    rewrite decide_True by (apply Hin; reflexivity). reflexivity.
Qed.

Lemma engine_error_propagates_witness :
  fst (V1.analyze Examples.sqrt6 Examples.env_engine_fails "song.mp3"
         Examples.world0)
  = Raise (AnalysisException "Error opening file") /\
  fst (V2.analyze_v2 Examples.sqrt6 Examples.env_engine_fails "song.mp3" "none"
         Examples.world0)
  = Raise (AnalysisException "Error opening file").
Proof.
  destruct (engine_error_propagates Examples.sqrt6 Examples.env_engine_fails
              "song.mp3" "none" Examples.world0
              (AnalysisException "Error opening file")
              (or_intror (ex_intro _ [] eq_refl))) as [H1 H2].
  split; [apply H1 | apply H2]; reflexivity.
Defined.

(** X15: once the normalizer has succeeded and the engine has returned a
    tempo and beat times, the analysis ends as the grid-offset block
    ends.  If the block raises, that exception leaves [analyze] and
    [analyze_v2] unchanged; if it returns an offset, both variants return
    a grid with the rounded tempo, the engine's beat times unchanged, four
    beats per bar, that offset, the confidence, and their own analyzer
    tag; variant 1 has no downbeats, variant 2 has them. *)
Theorem analysis_follows_offset (np_sqrt : Q -> Q) (env : Env)
    (path prefer_stem : string) (w : World)
    (tempo tempo2 : option Q) (beat_times beat_times2 : list Q) :
  is_wav path = true \/
  (exists err, run_process env (decoder_cmd env path w) = Exited 0 err) ->
  let wav := if is_wav path then path else tmp_path_of env w in
  (librosa_beats env wav = Ok (tempo, beat_times) ->
   fst (V1.analyze np_sqrt env path w)
   = rbind (V1.grid_offset (V1.bpm_of_tempo tempo) beat_times) (fun off =>
       Ok {| bpm := V1.bpm_of_tempo tempo;
             gridOffsetSec := off;
             beatsPerBar := 4;
             beatTimesSec := beat_times;
             downbeatTimesSec := None;
             confidence := V1.stability np_sqrt beat_times;
             analyzer := "librosa_beat_track_v1" |})) /\
  (librosa_beats_v2 env wav = Ok (tempo2, beat_times2) ->
   exists downbeats,
     V2._infer_downbeats_from_beats beat_times2 4 = Ok downbeats /\
     fst (V2.analyze_v2 np_sqrt env path prefer_stem w)
     = rbind (V2.grid_offset (V2.bpm_of_tempo tempo2) beat_times2) (fun off =>
         Ok {| bpm := V2.bpm_of_tempo tempo2;
               gridOffsetSec := off;
               beatsPerBar := 4;
               beatTimesSec := beat_times2;
               downbeatTimesSec := Some downbeats;
               confidence := V2.confidence_of np_sqrt beat_times2;
               analyzer := "librosa_v2_beats_downbeats" |})).
Proof.
  intros H wav.
  destruct (decode_handle env path w H) as (w1 & H1 & H2 & Hin).
  fold wav in H1, H2, Hin.
  split; intros Heng.
  - unfold V1.analyze. run_py. rewrite H1, Heng. cbn.
    destruct (V1.grid_offset (V1.bpm_of_tempo tempo) beat_times) as [off|e];
      cbn; (destruct (is_wav path); cbn; [reflexivity|]);
      rewrite decide_True by (apply Hin; reflexivity); reflexivity.
  - destruct (infer_downbeats_lookup beat_times2 4 ltac:(lia)) as (d & Hd & _).
    exists d. split; [exact Hd|].
    unfold V2.analyze_v2. run_py. rewrite H2, Heng. cbn. rewrite Hd. cbn.
    destruct (V2.grid_offset (V2.bpm_of_tempo tempo2) beat_times2) as [off|e];
      cbn; (destruct (is_wav path); cbn; [reflexivity|]);
      rewrite decide_True by (apply Hin; reflexivity); reflexivity.
Qed.

Lemma analysis_follows_offset_witness :
  fst (V1.analyze Examples.sqrt6 Examples.env_ok "song.mp3" Examples.world0)
  = rbind (V1.grid_offset (V1.bpm_of_tempo (Some 120.04)) [0.5; 1.0; 1.5; 2.0])
      (fun off =>
       Ok {| bpm := V1.bpm_of_tempo (Some 120.04);
             gridOffsetSec := off;
             beatsPerBar := 4;
             beatTimesSec := [0.5; 1.0; 1.5; 2.0];
             downbeatTimesSec := None;
             confidence := V1.stability Examples.sqrt6 [0.5; 1.0; 1.5; 2.0];
             analyzer := "librosa_beat_track_v1" |}) /\
  exists downbeats,
    V2._infer_downbeats_from_beats [0.5; 1.0; 1.5; 2.0] 4 = Ok downbeats /\
    fst (V2.analyze_v2 Examples.sqrt6 Examples.env_ok "song.mp3" "none"
           Examples.world0)
    = rbind (V2.grid_offset (V2.bpm_of_tempo (Some 120.04)) [0.5; 1.0; 1.5; 2.0])
        (fun off =>
         Ok {| bpm := V2.bpm_of_tempo (Some 120.04);
               gridOffsetSec := off;
               beatsPerBar := 4;
               beatTimesSec := [0.5; 1.0; 1.5; 2.0];
               downbeatTimesSec := Some downbeats;
               confidence := V2.confidence_of Examples.sqrt6 [0.5; 1.0; 1.5; 2.0];
               analyzer := "librosa_v2_beats_downbeats" |}).
Proof.
  destruct (analysis_follows_offset Examples.sqrt6 Examples.env_ok "song.mp3" "none"
              Examples.world0 (Some 120.04) (Some 120.04)
              [0.5; 1.0; 1.5; 2.0] [0.5; 1.0; 1.5; 2.0]
              (or_intror (ex_intro _ [] eq_refl))) as [H1 H2].
  split; [apply H1 | apply H2]; reflexivity.
Defined.

(** ** What a failed decode looks like from outside *)

(** A decoder that exits with a non-zero status makes [analyze] raise the
    [RuntimeError] of the normalizer; the engine is not consulted. *)
Lemma analyze_decode_nonzero (np_sqrt : Q -> Q) (env : Env)
    (path prefer_stem : string) (w : World) (rc : Z) (err : bytes) :
  is_wav path = false ->
  run_process env (decoder_cmd env path w) = Exited rc err ->
  rc <> 0%Z ->
  let w' := set_files (fun fs => fs ∖ {[tmp_path_of env w]})
              (log_call (decoder_cmd env path w)
                 (set_files (fun fs => {[tmp_path_of env w]} ∪ fs) w)) in
  V1.analyze np_sqrt env path w
  = (Raise (RuntimeError ("ffmpeg failed to decode input: "
                          +:+ decode_utf8_ignore env err)), w') /\
  V2.analyze_v2 np_sqrt env path prefer_stem w
  = (Raise (RuntimeError ("ffmpeg decode failed: "
                          +:+ decode_utf8_ignore env err)), w').
Proof.
  intros Hwav Hrun Hrc.
  destruct (decode_nonzero env path w rc err Hwav Hrun Hrc) as [H1 H2].
  unfold V1.analyze, V2.analyze_v2. run_py. rewrite H1, H2. split; reflexivity.
Qed.

(** X16: for an input that has to be decoded, the record on standard error
    tells the two decoder failures apart: after a non-zero exit its text is
    the variant's prefix followed by the decoded standard error of the
    decoder; when the decoder could not be started it is the text of the
    operating-system error, without a prefix.  In both cases nothing is
    printed on standard output and the exit status is 1. *)
Theorem decoder_errors_reported (np_sqrt : Q -> Q) (env : Env)
    (path prefer_stem : string) (w : World) :
  is_wav path = false ->
  let out1 := V1.main np_sqrt env path w in
  let out2 := V2.main np_sqrt env path prefer_stem w in
  (forall rc err,
     run_process env (decoder_cmd env path w) = Exited rc err -> rc <> 0%Z ->
     (fst out1 = Ok 1%Z /\ stdout (snd out1) = stdout w /\
      stderr (snd out1)
      = stderr w ++ [ {| error := "ffmpeg failed to decode input: "
                                  +:+ decode_utf8_ignore env err |} ]) /\
     (fst out2 = Ok 1%Z /\ stdout (snd out2) = stdout w /\
      stderr (snd out2)
      = stderr w ++ [ {| error := "ffmpeg decode failed: "
                                  +:+ decode_utf8_ignore env err |} ])) /\
  (forall msg,
     run_process env (decoder_cmd env path w) = NotStarted msg ->
     (fst out1 = Ok 1%Z /\ stdout (snd out1) = stdout w /\
      stderr (snd out1) = stderr w ++ [ {| error := msg |} ]) /\
     (fst out2 = Ok 1%Z /\ stdout (snd out2) = stdout w /\
      stderr (snd out2) = stderr w ++ [ {| error := msg |} ])).
Proof.
  intros Hwav out1 out2. subst out1 out2. split.
  - intros rc err Hrun Hrc.
    destruct (analyze_decode_nonzero np_sqrt env path prefer_stem w rc err
                Hwav Hrun Hrc) as [A1 A2].
    unfold V1.main, V2.main. run_py. rewrite A1, A2. cbn. auto 10.
  - intros msg Hrun.
    destruct (temp_file_left np_sqrt env path prefer_stem w msg Hwav Hrun)
      as [A1 A2].
    unfold V1.main, V2.main. run_py. rewrite A1, A2. cbn. auto 10.
Qed.

Lemma decoder_errors_reported_witness :
  let out1 := V1.main Examples.sqrt6 Examples.env_no_decoder "song.mp3"
                Examples.world0 in
  let out2 := V2.main Examples.sqrt6 Examples.env_no_decoder "song.mp3" "none"
                Examples.world0 in
  (fst out1 = Ok 1%Z /\ stdout (snd out1) = [] /\
   stderr (snd out1)
   = [ {| error := "[Errno 2] No such file or directory: 'ffmpeg'" |} ]) /\
  (fst out2 = Ok 1%Z /\ stdout (snd out2) = [] /\
   stderr (snd out2)
   = [ {| error := "[Errno 2] No such file or directory: 'ffmpeg'" |} ]).
Proof.
  apply (proj2 (decoder_errors_reported Examples.sqrt6 Examples.env_no_decoder
                  "song.mp3" "none" Examples.world0 eq_refl)).
  reflexivity.
Defined.

(** ** The two variants side by side *)

(** X17: on the same engine output the two variants act alike: they leave
    the same world (files, decoder calls, streams), both succeed or both
    raise, and on success variant 2 reports the same bpm, grid offset,
    beats per bar, beat times and confidence as variant 1. *)
Theorem variants_agree (np_sqrt : Q -> Q) (env : Env)
    (path prefer_stem : string) (w : World) :
  (forall wav, librosa_beats_v2 env wav = librosa_beats env wav) ->
  let run1 := V1.analyze np_sqrt env path w in
  let run2 := V2.analyze_v2 np_sqrt env path prefer_stem w in
  snd run2 = snd run1 /\
  match fst run1, fst run2 with
  | Ok g1, Ok g2 =>
      bpm g2 = bpm g1 /\ gridOffsetSec g2 = gridOffsetSec g1 /\
      beatsPerBar g2 = beatsPerBar g1 /\ beatTimesSec g2 = beatTimesSec g1 /\
      confidence g2 = confidence g1
  | Raise _, Raise _ => True
  | _, _ => False
  end.
Proof.
  intros Heng run1 run2. subst run1 run2.
  assert (Hin : tmp_path_of env w ∈ {[tmp_path_of env w]} ∪ files w).
  { apply elem_of_union. left. apply elem_of_singleton. reflexivity. }
  assert (Hbody : forall wav (w1 : World) (del : bool),
    (del = true -> wav ∈ files w1) ->
    V1._decode_to_wav env path w = (Ok (wav, del), w1) ->
    V2._decode_to_wav env path w = (Ok (wav, del), w1) ->
    snd (V2.analyze_v2 np_sqrt env path prefer_stem w)
    = snd (V1.analyze np_sqrt env path w) /\
    match fst (V1.analyze np_sqrt env path w),
          fst (V2.analyze_v2 np_sqrt env path prefer_stem w) with
    | Ok g1, Ok g2 =>
        bpm g2 = bpm g1 /\ gridOffsetSec g2 = gridOffsetSec g1 /\
        beatsPerBar g2 = beatsPerBar g1 /\ beatTimesSec g2 = beatTimesSec g1 /\
        confidence g2 = confidence g1
    | Raise _, Raise _ => True
    | _, _ => False
    end).
  { intros wav w1 del Hdel D1 D2.
    unfold V1.analyze, V2.analyze_v2. run_py. rewrite D1, D2, Heng.
    destruct (librosa_beats env wav) as [[tempo beats]|e]; cbn.
    - destruct (grid_offset_defined (V1.bpm_of_tempo tempo) beats)
        as (off & O1 & O2).
      destruct (infer_downbeats_lookup beats 4 ltac:(lia)) as (d & Hd & _).
      rewrite Hd. cbn. rewrite O1.
      change (V2.bpm_of_tempo tempo) with (V1.bpm_of_tempo tempo).
      rewrite O2. cbn.
      destruct del; cbn.
      + rewrite decide_True by auto. cbn. auto 10.
      + auto 10.
    - destruct del; cbn.
      + rewrite decide_True by auto. cbn. auto.
      + auto. }
  destruct (is_wav path) eqn:Hwav.
  - destruct (decode_wav env path w Hwav) as [H1 H2].
    apply (Hbody path w false); [discriminate | exact H1 | exact H2].
  - destruct (run_process env (decoder_cmd env path w)) as [rc err|msg] eqn:Hrun.
    + destruct (decide (rc = 0%Z)) as [-> | Hrc].
      * destruct (decode_done env path w err Hwav Hrun) as [H1 H2].
        eapply Hbody; [|exact H1|exact H2]. intros _. exact Hin.
      * destruct (analyze_decode_nonzero np_sqrt env path prefer_stem w rc err
                    Hwav Hrun Hrc) as [A1 A2].
        rewrite A1, A2. cbn. auto.
    + destruct (temp_file_left np_sqrt env path prefer_stem w msg Hwav Hrun)
        as [A1 A2].
      rewrite A1, A2. cbn. auto.
Qed.

Lemma variants_agree_witness :
  let run1 := V1.analyze Examples.sqrt6 Examples.env_ok "song.mp3" Examples.world0 in
  let run2 := V2.analyze_v2 Examples.sqrt6 Examples.env_ok "song.mp3" "none"
                Examples.world0 in
  snd run2 = snd run1 /\
  match fst run1, fst run2 with
  | Ok g1, Ok g2 =>
      bpm g2 = bpm g1 /\ gridOffsetSec g2 = gridOffsetSec g1 /\
      beatsPerBar g2 = beatsPerBar g1 /\ beatTimesSec g2 = beatTimesSec g1 /\
      confidence g2 = confidence g1
  | Raise _, Raise _ => True
  | _, _ => False
  end.
Proof.
  apply (variants_agree Examples.sqrt6 Examples.env_ok "song.mp3" "none"
           Examples.world0).
  intros wav. reflexivity.
Defined.

(** ** The extension test of [_decode_to_wav] (line 29 / line 24) *)

(** Lower-casing a character does not make or unmake a dot or a slash, and
    doing it twice changes nothing. *)
Lemma lower_ascii_sep (a c : ascii) :
  c = "."%char \/ c = "/"%char ->
  Ascii.eqb (Py.lower_ascii a) c = Ascii.eqb a c.
Proof.
  intros [-> | ->];
    destruct a as [[] [] [] [] [] [] [] []]; reflexivity.
Qed.

Lemma lower_ascii_idem (a : ascii) :
  Py.lower_ascii (Py.lower_ascii a) = Py.lower_ascii a.
Proof. destruct a as [[] [] [] [] [] [] [] []]; reflexivity. Qed.

Lemma lower_idem (s : string) : Py.lower (Py.lower s) = Py.lower s.
Proof.
  induction s as [|a s IH]; [reflexivity|].
  cbn [Py.lower]. rewrite lower_ascii_idem, IH. reflexivity.
Qed.

Lemma lower_length (s : string) : String.length (Py.lower s) = String.length s.
Proof. induction s as [|a s IH]; [reflexivity|]. cbn. rewrite IH. reflexivity. Qed.

Lemma rfind_from_lower (c : ascii) (s : string) (i found : Z) :
  c = "."%char \/ c = "/"%char ->
  Py.rfind_from c (Py.lower s) i found = Py.rfind_from c s i found.
Proof.
  intros Hc. revert i found. induction s as [|a s IH]; intros i found.
  - reflexivity.
  - cbn [Py.lower Py.rfind_from]. rewrite (lower_ascii_sep a c Hc). apply IH.
Qed.

Lemma get_lower (s : string) (i : nat) :
  String.get i (Py.lower s) = option_map Py.lower_ascii (String.get i s).
Proof.
  revert i. induction s as [|a s IH]; intros i.
  - reflexivity.
  - destruct i as [|i]; [reflexivity|]. cbn [Py.lower String.get]. apply IH.
Qed.

Lemma name_before_dot_lower (p : string) (i n : nat) :
  Py.name_before_dot (Py.lower p) i n = Py.name_before_dot p i n.
Proof.
  revert i. induction n as [|n IH]; intros i; [reflexivity|].
  cbn [Py.name_before_dot]. rewrite get_lower.
  destruct (String.get i p) as [c|]; cbn [option_map]; [|reflexivity].
  rewrite (lower_ascii_sep c "."%char) by (left; reflexivity).
  rewrite IH. reflexivity.
Qed.

Lemma substring_lower (s : string) (n m : nat) :
  substring n m (Py.lower s) = Py.lower (substring n m s).
Proof.
  revert n m. induction s as [|a s IH]; intros n m.
  - destruct n, m; reflexivity.
  - destruct n as [|n].
    + destruct m as [|m]; [reflexivity|].
      cbn [Py.lower substring]. rewrite IH. reflexivity.
    + cbn [Py.lower substring]. apply IH.
Qed.

Lemma splitext_lower (p : string) :
  Py.splitext (Py.lower p)
  = (Py.lower (fst (Py.splitext p)), Py.lower (snd (Py.splitext p))).
Proof.
  unfold Py.splitext, Py.rfind.
  rewrite !rfind_from_lower by auto.
  rewrite name_before_dot_lower, lower_length, !substring_lower.
  destruct (_ <? _)%Z; [|reflexivity].
  destruct (Py.name_before_dot _ _ _); reflexivity.
Qed.

(** X19: whether a path counts as a WAV file does not depend on the letter
    case of any part of the path: the path and its lower-cased form are
    treated alike by the extension test of both normalizers. *)
Theorem wav_test_ignores_case (env : Env) (path : string) (w : World) :
  is_wav (Py.lower path) = is_wav path /\
  (V1._decode_to_wav env path w = (Ok (path, false), w) <->
   V1._decode_to_wav env (Py.lower path) w = (Ok (Py.lower path, false), w)) /\
  (V2._decode_to_wav env path w = (Ok (path, false), w) <->
   V2._decode_to_wav env (Py.lower path) w = (Ok (Py.lower path, false), w)).
Proof.
  assert (Hcase : is_wav (Py.lower path) = is_wav path).
  { unfold is_wav. rewrite splitext_lower. cbn [snd]. rewrite lower_idem.
    reflexivity. }
  split; [exact Hcase|].
  assert (Hdec : forall p,
    (V1._decode_to_wav env p w = (Ok (p, false), w) <-> is_wav p = true) /\
    (V2._decode_to_wav env p w = (Ok (p, false), w) <-> is_wav p = true)).
  { intros p. destruct (is_wav p) eqn:Hp.
    - destruct (decode_wav env p w Hp) as [H1 H2]. split; split; auto.
    - split; split; try discriminate; intros H; exfalso.
      + destruct (run_process env (decoder_cmd env p w)) as [rc err|msg] eqn:Hrun.
        * destruct (decide (rc = 0%Z)) as [-> | Hrc].
          -- destruct (decode_done env p w err Hp Hrun) as [D _].
             rewrite D in H. discriminate.
          -- destruct (decode_nonzero env p w rc err Hp Hrun Hrc) as [D _].
             rewrite D in H. discriminate.
        * destruct (decode_not_started env p w msg Hp Hrun) as [D _].
          rewrite D in H. discriminate.
      + destruct (run_process env (decoder_cmd env p w)) as [rc err|msg] eqn:Hrun.
        * destruct (decide (rc = 0%Z)) as [-> | Hrc].
          -- destruct (decode_done env p w err Hp Hrun) as [_ D].
             rewrite D in H. discriminate.
          -- destruct (decode_nonzero env p w rc err Hp Hrun Hrc) as [_ D].
             rewrite D in H. discriminate.
        * destruct (decode_not_started env p w msg Hp Hrun) as [_ D].
          rewrite D in H. discriminate. }
  destruct (Hdec path) as [P1 P2]. destruct (Hdec (Py.lower path)) as [L1 L2].
  rewrite P1, P2, L1, L2, Hcase. split; reflexivity.
Qed.
